(** * MCP host, client and server over SSE: a shallow embedding

    The development follows the four Python sources of the repository:
    - [create_database.py]  the fixture store (module [Sqlite]);
    - [mcp_server.py]       the tool, resource and prompt handlers (module [Server]);
    - [mcp_client.py]       the [MCP_Client] wrapper around a session (module [Client]);
    - [mcp_host.py]         the question/answer loop (module [Host]).

    Python exceptions are values of type [exn]; a computation that may raise
    returns an [outcome]; code that also changes an object or talks to a
    collaborator runs in the state-and-exception monad [M].

    What lies outside the four sources is a parameter of the embedding: the
    SQL engine behind [sqlite3], the peer behind the MCP session, the
    serializer of content items, the chat-completion service and
    [json.loads]. Calls to [logging] are left out, except the two records
    by which the host surfaces an explanation or an error. The Capability
    Registry and the Session table of pending Invocations are provided by
    the MCP framework; modules [Registry] and [Session] model them from the
    specification. *)

From Stdlib Require Import Ascii String ZArith.
From stdpp Require Import strings pretty list gmap.

Local Open Scope string_scope.
Local Open Scope list_scope.

(** ** Python run-time notions shared by all modules *)

Module Py.

(** The exception classes the sources raise or may receive. *)
Inductive exn_class : Type :=
  | ConnectionError
  | UnboundLocalError
  | TypeError
  | IndexError
  | KeyError
  | EOFError
  | JSONDecodeError
  | OperationalError
  | IntegrityError
  | AttributeError
  | McpError
  | APIError.

(** An exception object: its class and the text [str(e)] gives. *)
Record exn : Type := mk_exn { exn_cls : exn_class; exn_str : string }.

Inductive outcome (A : Type) : Type :=
  | Returned (a : A)
  | Raised (e : exn).
Arguments Returned {A} a.
Arguments Raised {A} e.

Definition obind {A B} (o : outcome A) (k : A -> outcome B) : outcome B :=
  match o with
  | Returned a => k a
  | Raised e => Raised e
  end.

(** State and exceptions: a raising computation keeps the state reached so
    far, as a Python object keeps its attributes when a method raises. *)
Definition M (S A : Type) : Type := S -> outcome A * S.

Definition ret {S A} (a : A) : M S A := fun s => (Returned a, s).

Definition raise {S A} (e : exn) : M S A := fun s => (Raised e, s).

Definition bind {S A B} (m : M S A) (k : A -> M S B) : M S B :=
  fun s =>
    match m s with
    | (Returned a, s') => k a s'
    | (Raised e, s') => (Raised e, s')
    end.

Definition get {S} : M S S := fun s => (Returned s, s).

Definition modify {S} (f : S -> S) : M S unit := fun s => (Returned tt, f s).

Definition lift {S A} (o : outcome A) : M S A := fun s => (o, s).

(** [try: body / except Exception as e: handler e]. *)
Definition try_except {S A} (body : M S A) (handler : exn -> M S A) : M S A :=
  fun s =>
    match body s with
    | (Returned a, s') => (Returned a, s')
    | (Raised e, s') => handler e s'
    end.

(** [try: body / finally: cleanup]: the cleanup always runs; when it raises,
    its exception replaces the result of the body. *)
Definition try_finally {S A} (body : M S A) (cleanup : M S unit) : M S A :=
  fun s =>
    match body s with
    | (r, s') =>
        match cleanup s' with
        | (Returned _, s'') => (r, s'')
        | (Raised e, s'') => (Raised e, s'')
        end
    end.

Definition LF : ascii := ascii_of_nat 10.
Definition nl : string := String LF "".
Definition squote : ascii := ascii_of_nat 39.
Definition dquote : ascii := ascii_of_nat 34.
Definition backslash : ascii := ascii_of_nat 92.

(** [sep.join(items)]. *)
Definition join (sep : string) (items : list string) : string :=
  String.concat sep items.

(** [s.split(sep)] for a one-character separator. *)
Fixpoint split_on (c : ascii) (s : string) : list string :=
  match s with
  | "" => [""]
  | String a s' =>
      if Ascii.eqb a c then "" :: split_on c s'
      else match split_on c s' with
           | x :: r => String a x :: r
           | [] => [String a ""]
           end
  end.

Definition lines (s : string) : list string := split_on LF s.

Fixpoint contains_char (c : ascii) (s : string) : bool :=
  match s with
  | "" => false
  | String a s' => Ascii.eqb a c || contains_char c s'
  end.

(** [needle in haystack] on strings. *)
Fixpoint contains (needle haystack : string) : bool :=
  String.prefix needle haystack ||
  match haystack with
  | "" => false
  | String _ rest => contains needle rest
  end.

Definition hex_digit (n : nat) : ascii :=
  if (n <? 10)%nat then ascii_of_nat (48 + n) else ascii_of_nat (87 + n).

(** [repr] of one character of a [str]. Within ASCII this is [repr]
    exactly. Bytes from 128 on belong to the UTF-8 encoding of a non-ASCII
    character and are kept as they are, which is what [repr] does for every
    printable character (all CJK text); the non-printable characters beyond
    ASCII, which [repr] writes as escapes, are outside this definition. *)
Definition repr_char (quote : ascii) (a : ascii) : string :=
  let n := nat_of_ascii a in
  if Ascii.eqb a backslash then String backslash (String backslash "")
  else if Ascii.eqb a quote then String backslash (String quote "")
  else if (n =? 9)%nat then String backslash "t"
  else if (n =? 10)%nat then String backslash "n"
  else if (n =? 13)%nat then String backslash "r"
  else if (n <? 32)%nat || (n =? 127)%nat then
    String backslash (String "x" (String (hex_digit (n / 16)) (String (hex_digit (n mod 16)) "")))
  else String a "".

Fixpoint repr_body (quote : ascii) (s : string) : string :=
  match s with
  | "" => ""
  | String a s' => repr_char quote a +:+ repr_body quote s'
  end.

(** [repr(s)] for a [str]: single quotes unless the text has a single quote
    and no double quote. *)
Definition repr_str (s : string) : string :=
  let quote :=
    if contains_char squote s && negb (contains_char dquote s) then dquote else squote in
  String quote (repr_body quote s +:+ String quote "").

(** [s.lower()] on the ASCII letters. *)
Definition lower_char (a : ascii) : ascii :=
  let n := nat_of_ascii a in
  if (65 <=? n)%nat && (n <=? 90)%nat then ascii_of_nat (n + 32) else a.

Fixpoint lower (s : string) : string :=
  match s with
  | "" => ""
  | String a s' => String (lower_char a) (lower s')
  end.

End Py.

Export Py.

Declare Scope py_scope.
Delimit Scope py_scope with py.
Notation "x <- m ;; k" := (bind m (fun x => k))
  (at level 100, m at next level, right associativity) : py_scope.
Notation "m ;;; k" := (bind m (fun _ => k))
  (at level 100, right associativity) : py_scope.
Notation "'let!' x := o 'in' k" := (obind o (fun x => k))
  (at level 100, x name, o at next level, right associativity) : py_scope.
Local Open Scope py_scope.

(** ** The store: [create_database.py] and the part of SQLite it relies on *)

Module Sqlite.

(** A value a cursor returns (BLOBs, which the store does not hold, are
    left out). A REAL is carried as the decimal text [repr] prints for it. *)
Inductive value : Type :=
  | VNull
  | VInt (z : Z)
  | VReal (literal : string)
  | VText (s : string).

Definition row : Type := list value.

Record column : Type := mk_column {
  col_name : string;
  col_type : string;
  col_notnull : bool;
  col_pk : bool
}.

(** Rows are kept with their rowid, in rowid order: the order a table scan
    returns them in. *)
Record table : Type := mk_table {
  tbl_name : string;
  tbl_columns : list column;
  tbl_rows : list (Z * row)
}.

(** The catalog, in creation order. *)
Definition database : Type := list table.

Definition find_table (name : string) (db : database) : option table :=
  List.find (fun t => String.eqb (tbl_name t) name) db.

(** [CREATE TABLE IF NOT EXISTS name (columns)]. *)
Definition create_table_if_not_exists (name : string) (cols : list column)
    (db : database) : outcome database :=
  match find_table name db with
  | Some _ => Returned db
  | None => Returned (db ++ [mk_table name cols []])
  end.

Fixpoint upsert (k : Z) (r : row) (rows : list (Z * row)) : list (Z * row) :=
  match rows with
  | [] => [(k, r)]
  | (k', r') :: rest =>
      if (k <? k')%Z then (k, r) :: rows
      else if (k =? k')%Z then (k, r) :: rest
      else (k', r') :: upsert k r rest
  end.

Definition next_rowid (rows : list (Z * row)) : Z :=
  (fold_right Z.max 0 (map fst rows) + 1)%Z.

Definition is_null (v : value) : bool :=
  match v with VNull => true | _ => false end.

Fixpoint first_null_violation (cols : list column) (r : row) : option string :=
  match cols, r with
  | c :: cols', v :: r' =>
      if col_notnull c && is_null v then Some (col_name c)
      else first_null_violation cols' r'
  | _, _ => None
  end.

Definition replace_table (t : table) (db : database) : database :=
  map (fun t' => if String.eqb (tbl_name t') (tbl_name t) then t else t') db.

(** [INSERT OR REPLACE INTO name VALUES (?, ..., ?)] with the row bound to
    the placeholders, for a table laid out as the script declares its
    tables: the first column is the INTEGER PRIMARY KEY (the rowid), there
    is no other key or UNIQUE constraint, and the values come with the types
    of their columns, so that storing them converts nothing. Tables laid out
    otherwise are outside this definition. *)
Definition insert_or_replace (name : string) (r : row) (db : database)
    : outcome database :=
  match find_table name db with
  | None => Raised (mk_exn OperationalError ("no such table: " +:+ name))
  | Some t =>
      if negb (length r =? length (tbl_columns t))%nat then
        Raised (mk_exn OperationalError
          ("table " +:+ name +:+ " has " +:+ pretty (length (tbl_columns t))
           +:+ " columns but " +:+ pretty (length r) +:+ " values were supplied"))
      else
        match first_null_violation (tbl_columns t) r with
        | Some c =>
            Raised (mk_exn IntegrityError
              ("NOT NULL constraint failed: " +:+ name +:+ "." +:+ c))
        | None =>
            match r with
            | VInt k :: _ =>
                Returned (replace_table
                  (mk_table name (tbl_columns t) (upsert k r (tbl_rows t))) db)
            | VNull :: rest =>
                let k := next_rowid (tbl_rows t) in
                Returned (replace_table
                  (mk_table name (tbl_columns t)
                     (upsert k (VInt k :: rest) (tbl_rows t))) db)
            | _ => Raised (mk_exn IntegrityError "datatype mismatch")
            end
        end
  end.

(** [cursor.executemany('INSERT OR REPLACE ...', rows)]. *)
Fixpoint executemany_insert_or_replace (name : string) (rows : list row)
    (db : database) : outcome database :=
  match rows with
  | [] => Returned db
  | r :: rest =>
      let! db' := insert_or_replace name r db in
      executemany_insert_or_replace name rest db'
  end.

Definition users_columns : list column :=
  [ mk_column "id" "INTEGER" false true;
    mk_column "name" "TEXT" true false;
    mk_column "age" "INTEGER" false false;
    mk_column "email" "TEXT" false false ].

Definition orders_columns : list column :=
  [ mk_column "id" "INTEGER" false true;
    mk_column "user_id" "INTEGER" false false;
    mk_column "product_name" "TEXT" true false;
    mk_column "price" "REAL" false false;
    mk_column "order_date" "TEXT" false false ].

Definition users : list row :=
  [ [VInt 1; VText "张三"; VInt 25; VText "zhangsan@example.com"];
    [VInt 2; VText "李四"; VInt 30; VText "lisi@example.com"];
    [VInt 3; VText "王五"; VInt 35; VText "wangwu@example.com"] ].

Definition orders : list row :=
  [ [VInt 1; VInt 1; VText "笔记本电脑"; VReal "6999.99"; VText "2025-04-01"];
    [VInt 2; VInt 1; VText "手机"; VReal "4999.99"; VText "2025-04-15"];
    [VInt 3; VInt 2; VText "平板电脑"; VReal "3999.99"; VText "2025-04-20"];
    [VInt 4; VInt 3; VText "耳机"; VReal "999.99"; VText "2025-05-01"] ].

(** [create_database()], as a function of the content of [database.db]
    before the call; the result is what [conn.commit()] makes durable. *)
Definition create_database (db : database) : outcome database :=
  let! db := create_table_if_not_exists "users" users_columns db in
  let! db := create_table_if_not_exists "orders" orders_columns db in
  let! db := executemany_insert_or_replace "users" users db in
  let! db := executemany_insert_or_replace "orders" orders db in
  Returned db.

(** The fixture store: the script run where no [database.db] exists yet. *)
Definition keyed (r : row) : Z * row :=
  (match r with VInt k :: _ => k | _ => 0%Z end, r).

Definition fixture_store : database :=
  [ mk_table "users" users_columns (map keyed users);
    mk_table "orders" orders_columns (map keyed orders) ].

(** What the three statement shapes used by the server denote. *)

(** [SELECT name FROM sqlite_master WHERE type='table';] *)
Definition master_table_names (db : database) : list row :=
  map (fun t => [VText (tbl_name t)]) db.

Fixpoint table_info_from (cid : Z) (cols : list column) : list row :=
  match cols with
  | [] => []
  | c :: rest =>
      [VInt cid; VText (col_name c); VText (col_type c);
       VInt (if col_notnull c then 1 else 0); VNull;
       VInt (if col_pk c then 1 else 0)] :: table_info_from (cid + 1) rest
  end.

(** [PRAGMA table_info(name)]: one row (cid, name, type, notnull,
    dflt_value, pk) per column. *)
Definition table_info (t : table) : list row := table_info_from 0 (tbl_columns t).

(** [SELECT * FROM name]. *)
Definition select_all (t : table) : list row := map snd (tbl_rows t).

End Sqlite.

(** ** The server handlers: [mcp_server.py] *)

Module Server.
Import Sqlite.

(** [repr(v)] of a value in a fetched row. *)
Definition py_repr (v : value) : string :=
  match v with
  | VNull => "None"
  | VInt z => pretty z
  | VReal literal => literal
  | VText s => repr_str s
  end.

(** [str(v)], which an f-string applies to [{v}]. *)
Definition py_str (v : value) : string :=
  match v with
  | VText s => s
  | _ => py_repr v
  end.

(** [str(row)] of a tuple. *)
Definition str_tuple (r : row) : string :=
  match r with
  | [v] => "(" +:+ py_repr v +:+ ",)"
  | _ => "(" +:+ join ", " (map py_repr r) +:+ ")"
  end.

(** [t[i]] on a tuple. *)
Definition index (t : row) (i : nat) : outcome value :=
  match nth_error t i with
  | Some v => Returned v
  | None => Raised (mk_exn IndexError "tuple index out of range")
  end.

(** What the handlers do to the store, in order. *)
Inductive store_event : Type :=
  | Connected
  | Executed (sql : string)
  | Closed.

Definition master_sql : string :=
  "SELECT name FROM sqlite_master WHERE type='table';".

Definition pragma_sql (name : string) : string :=
  "PRAGMA table_info(" +:+ name +:+ ")".

Definition table_header (name : string) : string := "表 " +:+ name +:+ ":".

Definition column_line (name type : string) : string :=
  "  - " +:+ name +:+ " (" +:+ type +:+ ")".

Section Handlers.

(** The [sqlite3] module is a collaborator: [connect_reply] is what
    [sqlite3.connect("database.db")] gives, [engine conn sql] what
    [cursor.execute(sql)] followed by [cursor.fetchall()] gives. *)
Variable connect_reply : outcome database.
Variable engine : database -> string -> outcome (list row).

Definition sqlite3_connect : M (list store_event) database :=
  fun s =>
    match connect_reply with
    | Returned conn => (Returned conn, s ++ [Connected])
    | Raised e => (Raised e, s)
    end.

Definition execute_fetchall (conn : database) (sql : string)
    : M (list store_event) (list row) :=
  fun s => (engine conn sql, s ++ [Executed sql]).

Definition conn_close : M (list store_event) unit :=
  modify (fun s => s ++ [Closed]).

(** [query_db(sql)]. The name [conn] is bound by the first statement of the
    [try] block; when that statement raises, the handler computes its
    message and the [finally] clause then reads the unbound name. *)
Definition query_db (sql : string) : M (list store_event) string :=
  fun s =>
    match sqlite3_connect s with
    | (Returned conn, s1) =>
        try_finally
          (try_except
             (result <- execute_fetchall conn sql ;;
              ret (join nl (map str_tuple result)))
             (fun e => ret ("Error: " +:+ exn_str e)))
          conn_close s1
    | (Raised _, s1) =>
        (Raised (mk_exn UnboundLocalError
           "cannot access local variable 'conn' where it is not associated with a value"),
         s1)
    end.

(** The inner loop of [get_schema]: [for col in columns: schema.append(...)]. *)
Fixpoint schema_columns (columns : list row) (schema : list string)
    : outcome (list string) :=
  match columns with
  | [] => Returned schema
  | col :: rest =>
      let! c1 := index col 1 in
      let! c2 := index col 2 in
      schema_columns rest (schema ++ [column_line (py_str c1) (py_str c2)])
  end.

(** The outer loop of [get_schema]: [for table in tables: ...]. *)
Fixpoint schema_tables (conn : database) (tables : list row) (schema : list string)
    : M (list store_event) (list string) :=
  match tables with
  | [] => ret schema
  | table :: rest =>
      name <- lift (index table 0) ;;
      columns <- execute_fetchall conn (pragma_sql (py_str name)) ;;
      schema' <- lift (schema_columns columns (schema ++ [table_header (py_str name)])) ;;
      schema_tables conn rest schema'
  end.

(** [get_schema()], the resource [db://schema]. *)
Definition get_schema : M (list store_event) (list string) :=
  conn <- sqlite3_connect ;;
  tables <- execute_fetchall conn master_sql ;;
  schema <- schema_tables conn tables [] ;;
  conn_close ;;;
  ret schema.

End Handlers.

Definition prompt_head : string :=
  "请将以下问题转换为SQL查询：" +:+ nl +:+ "问题: ".

Definition prompt_tail : string :=
  nl +:+ nl +:+
  "可用的表结构:" +:+ nl +:+
  "- users(id, name, age, email)" +:+ nl +:+
  "- orders(id, user_id, product_name, price, order_date)" +:+ nl +:+ nl +:+
  "请生成标准的SQLite SQL语句，不要生成其他内容，只返回SQL语句本身。".

(** [sql_prompt(question)]: one f-string, nothing else. *)
Definition sql_prompt (question : string) : string :=
  prompt_head +:+ question +:+ prompt_tail.

(** Modelled from the spec: the status of an Invocation (section 3). The
    dispatcher that runs a handler belongs to the MCP framework; an
    invocation whose handler returns is Succeeded, one whose handler raises
    is Failed. *)
Inductive status : Type := Succeeded | Failed.

Definition invocation_status {A} (o : outcome A) : status :=
  match o with
  | Returned _ => Succeeded
  | Raised _ => Failed
  end.

(** What one table contributes to the schema resource. *)
Definition schema_of_table (t : table) : list string :=
  table_header (tbl_name t)
  :: map (fun c => column_line (col_name c) (col_type c)) (tbl_columns t).

(** A table scan, as the engine is expected to answer [SELECT * FROM name]. *)
Definition scan (name : string) (db : database) : outcome (list row) :=
  match find_table name db with
  | Some t => Returned (select_all t)
  | None => Raised (mk_exn OperationalError ("no such table: " +:+ name))
  end.

(** A small engine used to run the handlers on concrete stores: it answers
    the three statement shapes of this repository and rejects any other text
    as a syntax error. *)
Definition small_engine (db : database) (sql : string) : outcome (list row) :=
  if String.eqb sql master_sql then Returned (master_table_names db)
  else if String.prefix "PRAGMA table_info(" sql then
    match List.find (fun t => String.eqb sql (pragma_sql (tbl_name t))) db with
    | Some t => Returned (table_info t)
    | None => Returned []
    end
  else if String.prefix "SELECT * FROM " sql then
    match List.find (fun t => String.eqb sql ("SELECT * FROM " +:+ tbl_name t)) db with
    | Some t => Returned (select_all t)
    | None => Raised (mk_exn OperationalError "no such table")
    end
  else
    Raised (mk_exn OperationalError
      ("near " +:+ String dquote (sql +:+ String dquote ": syntax error"))).

End Server.

(** ** JSON values, as [json.loads] returns them and dicts carry them *)

Module Json.

#[warnings="-register-all"]
Inductive json : Type :=
  | JNull
  | JBool (b : bool)
  | JNum (z : Z)
  | JStr (s : string)
  | JArr (items : list json)
  | JObj (fields : list (string * json)).

(** [d.get(key, fallback)] once the lookup is done. *)
Definition get_or {A} (fallback : A) (found : option A) : A :=
  match found with
  | Some x => x
  | None => fallback
  end.

(** [d.get(key)] on the items of a dict. *)
Fixpoint dict_get {V} (key : string) (d : list (string * V)) : option V :=
  match d with
  | [] => None
  | (k, v) :: rest => if String.eqb k key then Some v else dict_get key rest
  end.

(** [v[key]] with a [str] key. *)
Definition subscript (v : json) (key : string) : outcome json :=
  match v with
  | JObj fields =>
      match dict_get key fields with
      | Some x => Returned x
      | None => Raised (mk_exn KeyError (repr_str key))
      end
  | JArr _ => Raised (mk_exn TypeError "list indices must be integers or slices, not str")
  | JStr _ => Raised (mk_exn TypeError "string indices must be integers, not 'str'")
  | JNull => Raised (mk_exn TypeError "'NoneType' object is not subscriptable")
  | JBool _ => Raised (mk_exn TypeError "'bool' object is not subscriptable")
  | JNum _ => Raised (mk_exn TypeError "'int' object is not subscriptable")
  end.

End Json.

Export Json.

(** ** The client: [mcp_client.py] *)

Module Client.

Record ToolParameter : Type := mk_ToolParameter {
  name : string;
  parameter_type : string;
  description : string;
  required : bool;
  default : option json
}.

Record ToolDef : Type := mk_ToolDef {
  td_name : string;
  td_description : string;
  parameters : list ToolParameter;
  metadata : option (list (string * json));
  identifier : string
}.

Record ToolInvocationResult : Type := mk_ToolInvocationResult {
  content : string;
  error_code : Z
}.

(** What the session hands back (the types of the MCP library). *)

Record param_schema : Type := mk_param_schema {
  ps_type : option string;
  ps_description : option string;
  ps_default : option json
}.

Record input_schema : Type := mk_input_schema {
  properties : option (list (string * param_schema));
  required_names : option (list string)
}.

Record Tool : Type := mk_Tool {
  tool_name : string;
  tool_description : string;
  inputSchema : input_schema
}.

Inductive Content : Type :=
  | TextContent (text : string)
  | ImageContent (data mimeType : string)
  | EmbeddedResource (uri text : string).

Record CallToolResult : Type := mk_CallToolResult {
  result_content : list Content;
  isError : bool
}.

Record PromptMessage : Type := mk_PromptMessage {
  role : string;
  message_content : Content
}.

Record GetPromptResult : Type := mk_GetPromptResult {
  messages : list PromptMessage
}.

(** The contexts [connect] enters on the exit stack. *)
Inductive context : Type :=
  | StreamsContext
  | SessionContext.

(** Everything the client puts on the wire, in order. *)
Inductive message : Type :=
  | OpenSse (url : string)
  | Initialize
  | ListTools
  | CallTool (name : string) (arguments : list (string * json))
  | GetPrompt (name : string) (arguments : list (string * json))
  | ReadResource (uri : string)
  | Release (ctx : context).

Inductive ClientSession : Type := mk_ClientSession (endpoint : string).

(** The attributes of an [MCP_Client] object, and the wire it writes to.
    The exit stack holds the entered contexts, the last entered first. *)
Record MCP_Client : Type := mk_MCP_Client {
  url : string;
  session : option ClientSession;
  exit_stack : list context;
  sent : list message
}.

(** [MCP_Client(host, port)]. *)
Definition init (host : string) (port : Z) : MCP_Client :=
  mk_MCP_Client ("http://" +:+ host +:+ ":" +:+ pretty port +:+ "/sse") None [] [].

(** The peer: what each awaited call on the transport or the session gives. *)
Record Peer : Type := mk_Peer {
  sse_reply : string -> outcome unit;
  session_reply : outcome unit;
  initialize_reply : outcome unit;
  list_tools_reply : outcome (list Tool);
  call_tool_reply : string -> list (string * json) -> outcome CallToolResult;
  get_prompt_reply : string -> list (string * json) -> outcome GetPromptResult;
  read_resource_reply : string -> outcome (list json)
}.

Definition send (m : message) : M MCP_Client unit :=
  modify (fun c => mk_MCP_Client (url c) (session c) (exit_stack c) (sent c ++ [m])).

Definition set_session (v : option ClientSession) : M MCP_Client unit :=
  modify (fun c => mk_MCP_Client (url c) v (exit_stack c) (sent c)).

(** [await self.exit_stack.enter_async_context(cm)]: the context is pushed
    only when entering it succeeds. *)
Definition enter_async_context (ctx : context) (reply : outcome unit)
    : M MCP_Client unit :=
  lift reply ;;;
  modify (fun c => mk_MCP_Client (url c) (session c) (ctx :: exit_stack c) (sent c)).

(** [await self.exit_stack.aclose()]: the entered contexts are left in
    reverse order of entry, each exit completing normally. *)
Definition aclose : M MCP_Client unit :=
  modify (fun c =>
    mk_MCP_Client (url c) (session c) [] (sent c ++ map Release (exit_stack c))).

(** [disconnect()]. *)
Definition disconnect : M MCP_Client unit :=
  aclose ;;;
  set_session None.

Definition not_connected : exn := mk_exn ConnectionError "Not connected to MCP server".

(** [if not self.session: raise ConnectionError(...)]. *)
Definition require_session : M MCP_Client ClientSession :=
  c <- get ;;
  match session c with
  | None => raise not_connected
  | Some s => ret s
  end.

Definition tool_parameter (required_params : list string)
    (p : string * param_schema) : ToolParameter :=
  mk_ToolParameter
    (fst p)
    (get_or "string" (ps_type (snd p)))
    (get_or "" (ps_description (snd p)))
    (existsb (String.eqb (fst p)) required_params)
    (ps_default (snd p)).

Definition tool_def (endpoint : string) (tool : Tool) : ToolDef :=
  let required_params := get_or [] (required_names (inputSchema tool)) in
  mk_ToolDef
    (tool_name tool)
    (tool_description tool)
    (map (tool_parameter required_params) (get_or [] (properties (inputSchema tool))))
    (Some [("endpoint", JStr endpoint)])
    (tool_name tool).

(** The async generator [get_resource(uri)]: calling it runs nothing; the
    body starts at the first pull. *)
Inductive resource_generator : Type :=
  | GenCreated (uri : string)
  | GenSuspended (remaining : list json)
  | GenClosed.

Definition get_resource (uri : string) : resource_generator := GenCreated uri.

Definition yield_from (items : list json) : option json * resource_generator :=
  match items with
  | [] => (None, GenClosed)
  | item :: rest => (Some item, GenSuspended rest)
  end.

Section Operations.

Variable peer : Peer.

(** [pydantic]'s [model_dump_json] on a content item. *)
Variable model_dump_json : Content -> string.

(** [connect()]. *)
Definition connect : M MCP_Client unit :=
  try_except
    (c <- get ;;
     send (OpenSse (url c)) ;;;
     enter_async_context StreamsContext (sse_reply peer (url c)) ;;;
     enter_async_context SessionContext (session_reply peer) ;;;
     set_session (Some (mk_ClientSession (url c))) ;;;
     send Initialize ;;;
     lift (initialize_reply peer) ;;;
     send ListTools ;;;
     tools <- lift (list_tools_reply peer) ;;
     ret tt)
    (fun e =>
       disconnect ;;;
       raise (mk_exn ConnectionError ("Failed to connect to MCP server: " +:+ exn_str e))).

(** [list_tools()]. *)
Definition list_tools : M MCP_Client (list ToolDef) :=
  _ <- require_session ;;
  send ListTools ;;;
  tools_result <- lift (list_tools_reply peer) ;;
  c <- get ;;
  ret (map (tool_def (url c)) tools_result).

(** [call_tool(name, arguments)]; [None] and the empty dict both stand for
    [arguments or {}]. *)
Definition call_tool (name : string) (arguments : option (list (string * json)))
    : M MCP_Client ToolInvocationResult :=
  _ <- require_session ;;
  let args := get_or [] arguments in
  send (CallTool name args) ;;;
  result <- lift (call_tool_reply peer name args) ;;
  ret (mk_ToolInvocationResult
         (join nl (map model_dump_json (result_content result)))
         (if isError result then 1 else 0)%Z).

(** [get_prompt(name, **kwargs)]. *)
Definition get_prompt (name : string) (kwargs : list (string * json))
    : M MCP_Client GetPromptResult :=
  _ <- require_session ;;
  send (GetPrompt name kwargs) ;;;
  lift (get_prompt_reply peer name kwargs).

(** One pull ([__anext__]) on the generator of [get_resource]; [None] is the
    end of the iteration. *)
Definition anext (g : resource_generator)
    : M MCP_Client (option json * resource_generator) :=
  match g with
  | GenCreated uri =>
      _ <- require_session ;;
      send (ReadResource uri) ;;;
      response <- lift (read_resource_reply peer uri) ;;
      ret (yield_from response)
  | GenSuspended remaining => ret (yield_from remaining)
  | GenClosed => ret (None, GenClosed)
  end.

End Operations.

End Client.

(** ** The host: [mcp_host.py] *)

Module Host.
Import Client.

(** The chat-completion service (the reasoning collaborator). *)

Record ToolCall : Type := mk_ToolCall {
  function_name : string;
  function_arguments : string
}.

Record ChatMessage : Type := mk_ChatMessage {
  message_text : option string;
  tool_calls : option (list ToolCall)
}.

Record ChatCompletion : Type := mk_ChatCompletion {
  choices : list ChatMessage
}.

(** One entry of [openai_tools]. *)
Record openai_tool : Type := mk_openai_tool {
  fn_name : string;
  fn_description : string;
  fn_properties : list (string * (string * string));
  fn_required : list string
}.

Definition openai_tool_of (tool : ToolDef) : openai_tool :=
  mk_openai_tool
    (td_name tool)
    (td_description tool)
    (map (fun param => (name param, (parameter_type param, description param)))
         (parameters tool))
    (map name (List.filter required (parameters tool))).

(** [translate prompt_text openai_tools] is the first completion request
    (tool choice forced to [query_db]), [explain text] the second, and
    [json_loads] the standard [json.loads]. *)
Record Collaborators : Type := mk_Collaborators {
  translate : string -> list openai_tool -> outcome ChatCompletion;
  explain : string -> outcome ChatCompletion;
  json_loads : string -> outcome json
}.

(** What the host reads, asks and logs, in order. *)
Inductive host_event : Type :=
  | ReadLine (line : string)
  | SchemaLogged (item : json)
  | Translating (prompt_text : string)
  | Explaining (request : string)
  | ExplanationLogged (text : option string)
  | ErrorLogged (msg : string).

Record host : Type := mk_host {
  client : MCP_Client;
  journal : list host_event
}.

Definition on_client {A} (m : M MCP_Client A) : M host A :=
  fun h =>
    match m (client h) with
    | (r, c') => (r, mk_host c' (journal h))
    end.

Definition log (e : host_event) : M host unit :=
  modify (fun h => mk_host (client h) (journal h ++ [e])).

(** [xs[i]] on a list. *)
Definition list_index {A} (xs : list A) (i : nat) : outcome A :=
  match nth_error xs i with
  | Some x => Returned x
  | None => Raised (mk_exn IndexError "list index out of range")
  end.

(** [content.text]. *)
Definition content_text (c : Content) : outcome string :=
  match c with
  | TextContent text => Returned text
  | ImageContent _ _ =>
      Raised (mk_exn AttributeError "'ImageContent' object has no attribute 'text'")
  | EmbeddedResource _ _ =>
      Raised (mk_exn AttributeError "'EmbeddedResource' object has no attribute 'text'")
  end.

(** [message.tool_calls[0]]. *)
Definition first_tool_call (m : ChatMessage) : outcome ToolCall :=
  match tool_calls m with
  | None => Raised (mk_exn TypeError "'NoneType' object is not subscriptable")
  | Some calls => list_index calls 0
  end.

(** [str(result)] of the dataclass. *)
Definition str_result (r : ToolInvocationResult) : string :=
  "ToolInvocationResult(content=" +:+ repr_str (content r) +:+
  ", error_code=" +:+ pretty (error_code r) +:+ ")".

Definition explain_request (r : ToolInvocationResult) : string :=
  "请用通俗易懂的中文解释这个查询结果:" +:+ nl +:+ str_result r.

Section Main.

Variable peer : Peer.
Variable model_dump_json : Content -> string.
Variable llm : Collaborators.

(** The body of the [while True] loop after the quit test. *)
Definition iteration (tools : list ToolDef) (user_question : string) : M host unit :=
  prompt <- on_client (get_prompt peer "sql_prompt" [("question", JStr user_question)]) ;;
  let openai_tools := map openai_tool_of tools in
  first_message <- lift (list_index (messages prompt) 0) ;;
  prompt_text <- lift (content_text (message_content first_message)) ;;
  log (Translating prompt_text) ;;;
  response <- lift (translate llm prompt_text openai_tools) ;;
  choice <- lift (list_index (choices response) 0) ;;
  call <- lift (first_tool_call choice) ;;
  sql_args <- lift (json_loads llm (function_arguments call)) ;;
  sql_query <- lift (subscript sql_args "sql") ;;
  result <- on_client (call_tool peer model_dump_json "query_db" (Some [("sql", sql_query)])) ;;
  log (Explaining (explain_request result)) ;;;
  explanation <- lift (explain llm (explain_request result)) ;;
  answer <- lift (list_index (choices explanation) 0) ;;
  log (ExplanationLogged (message_text answer)).

(** The [while True] loop over the lines standard input still holds; with
    none left, [input] raises [EOFError]. *)
Fixpoint main_loop (tools : list ToolDef) (inputs : list string) : M host unit :=
  match inputs with
  | [] => raise (mk_exn EOFError "EOF when reading a line")
  | user_question :: rest =>
      log (ReadLine user_question) ;;;
      if String.eqb (lower user_question) "q" then ret tt
      else (iteration tools user_question ;;; main_loop tools rest)
  end.

Fixpoint log_schema (items : list json) : M host unit :=
  match items with
  | [] => ret tt
  | item :: rest => log (SchemaLogged item) ;;; log_schema rest
  end.

(** [async for content in client.get_resource("db://schema")]: after the
    first pull the generator only hands out what is left of the response. *)
Definition read_schema : M host unit :=
  pulled <- on_client (anext peer (get_resource "db://schema")) ;;
  match pulled with
  | (Some item, GenSuspended rest) => log (SchemaLogged item) ;;; log_schema rest
  | _ => ret tt
  end.

(** What [main] does inside its [try] block before the loop. *)
Definition startup : M host (list ToolDef) :=
  on_client (connect peer) ;;;
  read_schema ;;;
  on_client (list_tools peer).

(** [main()], on a fresh client. *)
Definition main (inputs : list string) : M host unit :=
  try_finally
    (try_except
       (tools <- startup ;;
        main_loop tools inputs)
       (fun e => log (ErrorLogged (exn_str e))))
    (on_client disconnect).

(** The questions [qs] are all answered, taking the host from [h] to [h']:
    none is the quit signal and each iteration returns. *)
Inductive answered (tools : list ToolDef) : list string -> host -> host -> Prop :=
  | answered_nil (h : host) : answered tools [] h h
  | answered_cons (q : string) (qs : list string) (h h1 h2 h3 : host) :
      String.eqb (lower q) "q" = false ->
      log (ReadLine q) h = (Returned tt, h1) ->
      iteration tools q h1 = (Returned tt, h2) ->
      answered tools qs h2 h3 ->
      answered tools (q :: qs) h h3.

(** The loop as C5 words it: an iteration that raises is reported and the
    loop goes on to await the next question. *)
Definition error_is_local : Prop :=
  forall (tools : list ToolDef) (q : string) (rest : list string) (h h' : host) (e : exn),
    String.eqb (lower q) "q" = false ->
    iteration tools q (mk_host (client h) (journal h ++ [ReadLine q])) = (Raised e, h') ->
    main_loop tools (q :: rest) h =
    main_loop tools rest (mk_host (client h') (journal h' ++ [ErrorLogged (exn_str e)])).

End Main.

Definition fresh_host : host := mk_host (Client.init "127.0.0.1" 8100) [].

End Host.

(** ** The Capability Registry *)

Module Registry.
Import Client.

Inductive registry_error : Type :=
  | DuplicateCapability
  | InvalidArguments
  | ToolExecutionError (msg : string).

Inductive tool_result : Type :=
  | ToolContent (text : string)
  | Fails (e : registry_error).

Definition json_type_name (v : json) : string :=
  match v with
  | JNull => "null"
  | JBool _ => "boolean"
  | JNum _ => "number"
  | JStr _ => "string"
  | JArr _ => "array"
  | JObj _ => "object"
  end.

Section Dispatch.

(** The state handlers act on. *)
Variable W : Type.

Definition handler : Type := list (string * json) -> M W string.

Definition registry : Type := list (ToolDef * handler).

Definition lookup_tool (key : string) (reg : registry) : option (ToolDef * handler) :=
  List.find (fun entry => String.eqb (td_name (fst entry)) key) reg.

(** Modelled from the spec: [register_tool(ToolDef, handler)] of the
    Capability Registry (section 4.2), which fails with DuplicateCapability
    when the key exists and keeps insertion order. The registry is the MCP
    framework's and is not in the sources. *)
Definition register_tool (td : ToolDef) (h : handler) (reg : registry)
    : registry_error + registry :=
  match lookup_tool (td_name td) reg with
  | Some _ => inl DuplicateCapability
  | None => inr (reg ++ [(td, h)])
  end.

(** Modelled from the spec: the validation of section 4.2, "arguments
    violate a parameter's declared type or a required parameter is
    missing". The validator is the MCP framework's and is not in the
    sources. *)
Definition argument_ok (arguments : list (string * json)) (p : ToolParameter) : bool :=
  match dict_get (name p) arguments with
  | None => negb (required p)
  | Some v => String.eqb (json_type_name v) (parameter_type p)
  end.

Definition valid_arguments (params : list ToolParameter)
    (arguments : list (string * json)) : bool :=
  forallb (argument_ok arguments) params.

(** Modelled from the spec: [invoke_tool(name, arguments)] of section 4.2:
    look the handler up, fail with InvalidArguments before the handler runs,
    otherwise run it and wrap what it raises into a ToolExecutionError
    carrying the message. The dispatcher is the MCP framework's and is not in
    the sources; the spec does not say what an unknown name gives ([None]
    here). *)
Definition invoke_tool (reg : registry) (key : string)
    (arguments : list (string * json)) (w : W) : option (tool_result * W) :=
  match lookup_tool key reg with
  | None => None
  | Some (td, h) =>
      if valid_arguments (parameters td) arguments then
        match h arguments w with
        | (Returned text, w') => Some (ToolContent text, w')
        | (Raised e, w') => Some (Fails (ToolExecutionError (exn_str e)), w')
        end
      else Some (Fails InvalidArguments, w)
  end.

End Dispatch.

(** The tool [query_db] as the server declares it: one required string
    parameter [sql]. *)
Definition query_db_def : ToolDef :=
  mk_ToolDef "query_db" "执行SQL查询"
    [mk_ToolParameter "sql" "string" "" true None] None "query_db".

Definition query_db_handler (connect_reply : outcome Sqlite.database)
    (engine : Sqlite.database -> string -> outcome (list Sqlite.row))
    : handler (list Server.store_event) :=
  fun arguments =>
    match dict_get "sql" arguments with
    | Some (JStr sql) => Server.query_db connect_reply engine sql
    | _ => raise (mk_exn TypeError "query_db() missing 1 required positional argument: 'sql'")
    end.

End Registry.

(** ** The Session and its pending Invocations *)

Module Session.

Inductive session_state : Type := Handshaking | Active | Closing | Closed.

Inductive kind : Type := CallTool | ReadResource | GetPrompt.

Record Invocation : Type := mk_Invocation {
  inv_kind : kind;
  target : string;
  arguments : list (string * json)
}.

(** How an Invocation ends. *)
Inductive resolution : Type :=
  | Result (payload : string)
  | Error (message : string)
  | Cancelled.

(** Modelled from the spec: the Session of section 3, with its state and its
    table [pending_calls] from correlation id to pending Invocation;
    [delivered] lists the resolutions handed to callers, in order. The
    session object is the MCP library's and is not in the sources. *)
Record Session : Type := mk_Session {
  state : session_state;
  pending_calls : gmap nat Invocation;
  delivered : list (nat * resolution)
}.

Inductive event : Type :=
  | HandshakeDone
  | ProtocolMismatch
  | Send (correlation_id : nat) (inv : Invocation)
  | Receive (correlation_id : nat) (r : resolution)
  | Close
  | StreamDeath.

(** Modelled from the spec: [open] starts in Handshaking (section 4.1). *)
Definition opened : Session := mk_Session Handshaking ∅ [].

(** Modelled from the spec: closing "fails all pending Invocations with a
    cancellation error" (sections 3 and 4.1). *)
Definition cancel_all (s : Session) : Session :=
  mk_Session Closed ∅
    (delivered s ++ map (fun entry => (fst entry, Cancelled)) (map_to_list (pending_calls s))).

(** Modelled from the spec: the session life cycle of sections 3, 4.1 and
    4.3. A request enters the table when it is sent on an Active session
    with an unused correlation id; a response resolves the Invocation
    waiting under its id and is dropped otherwise; close and stream death
    cancel what is pending; a Closed session ignores everything. *)
Definition step (s : Session) (e : event) : Session :=
  match state s with
  | Closed => s
  | Handshaking =>
      match e with
      | HandshakeDone => mk_Session Active (pending_calls s) (delivered s)
      | ProtocolMismatch | Close | StreamDeath => cancel_all s
      | _ => s
      end
  | Active | Closing =>
      match e with
      | Send id inv =>
          match state s, pending_calls s !! id with
          | Active, None => mk_Session Active (<[id := inv]> (pending_calls s)) (delivered s)
          | _, _ => s
          end
      | Receive id r =>
          match pending_calls s !! id with
          | Some _ => mk_Session (state s) (delete id (pending_calls s)) (delivered s ++ [(id, r)])
          | None => s
          end
      | Close | StreamDeath => cancel_all s
      | HandshakeDone | ProtocolMismatch => s
      end
  end.

Definition run (s : Session) (events : list event) : Session :=
  fold_left step events s.

(** The resolutions delivered for one correlation id, in order. *)
Definition resolutions_of (id : nat) (log : list (nat * resolution)) : list resolution :=
  map snd (List.filter (fun entry => Nat.eqb (fst entry) id) log).

End Session.

(** ** Concrete collaborators, to run the client and the host *)

Module Scenario.
Import Client Host.

Definition quoted (s : string) : string := String dquote (s +:+ String dquote "").

(** A plain serializer for content items. *)
Definition dump (c : Content) : string :=
  match c with
  | TextContent text => "{" +:+ quoted "type" +:+ ":" +:+ quoted "text" +:+ ","
                        +:+ quoted "text" +:+ ":" +:+ quoted text +:+ "}"
  | ImageContent data mime => "{" +:+ quoted "type" +:+ ":" +:+ quoted "image" +:+ "}"
  | EmbeddedResource uri text => "{" +:+ quoted "type" +:+ ":" +:+ quoted "resource" +:+ "}"
  end.

Definition query_db_tool : Tool :=
  mk_Tool "query_db" "执行SQL查询"
    (mk_input_schema (Some [("sql", mk_param_schema (Some "string") None None)])
       (Some ["sql"])).

(** A server that is up: it advertises [query_db], renders [sql_prompt] with
    the server handler and answers every query with one row. *)
Definition live_peer : Peer :=
  mk_Peer
    (fun _ => Returned tt)
    (Returned tt)
    (Returned tt)
    (Returned [query_db_tool])
    (fun name arguments => Returned (mk_CallToolResult [TextContent "(3,)"] false))
    (fun name arguments =>
       match dict_get "question" arguments with
       | Some (JStr question) =>
           Returned (mk_GetPromptResult
             [mk_PromptMessage "user" (TextContent (Server.sql_prompt question))])
       | _ => Raised (mk_exn McpError "Missing required arguments")
       end)
    (fun uri => Returned [JStr "表 users:"; JStr "  - id (INTEGER)"]).

(** No server listening. *)
Definition dead_peer : Peer :=
  mk_Peer
    (fun _ => Raised (mk_exn McpError "All connection attempts failed"))
    (Returned tt)
    (Returned tt)
    (Returned [])
    (fun _ _ => Raised (mk_exn McpError "Connection closed"))
    (fun _ _ => Raised (mk_exn McpError "Connection closed"))
    (fun _ => Raised (mk_exn McpError "Connection closed")).

(** A server whose handshake fails after the transport is up. *)
Definition mute_peer : Peer :=
  mk_Peer
    (fun _ => Returned tt)
    (Returned tt)
    (Raised (mk_exn McpError "Timed out while waiting for response"))
    (Returned [])
    (fun _ _ => Raised (mk_exn McpError "Connection closed"))
    (fun _ _ => Raised (mk_exn McpError "Connection closed"))
    (fun _ => Raised (mk_exn McpError "Connection closed")).

Definition count_users_arguments : string :=
  "{" +:+ quoted "sql" +:+ ": " +:+ quoted "SELECT COUNT(*) FROM users" +:+ "}".

Definition sample_json_loads (s : string) : outcome json :=
  if String.eqb s count_users_arguments
  then Returned (JObj [("sql", JStr "SELECT COUNT(*) FROM users")])
  else Raised (mk_exn JSONDecodeError "Expecting value: line 1 column 1 (char 0)").

(** A reasoning collaborator that calls the tool for questions about a
    count and declines to call a tool for any other question. *)
Definition picky_llm : Collaborators :=
  mk_Collaborators
    (fun prompt_text tools =>
       if contains "how many" prompt_text
       then Returned (mk_ChatCompletion
              [mk_ChatMessage (Some "") (Some [mk_ToolCall "query_db" count_users_arguments])])
       else Returned (mk_ChatCompletion [mk_ChatMessage (Some "I cannot help with that") None]))
    (fun request => Returned (mk_ChatCompletion [mk_ChatMessage (Some "共有 3 位用户") None]))
    sample_json_loads.

(** The fixture store after [CREATE TABLE "my table" (id INTEGER)]: a
    table whose name has to be quoted to be read back. *)
Definition spaced_store : Sqlite.database :=
  Sqlite.fixture_store
  ++ [Sqlite.mk_table "my table" [Sqlite.mk_column "id" "INTEGER" false false] []].

(** The small engine, rejecting [PRAGMA table_info(my table)] as SQLite
    does. *)
Definition refusing_engine (db : Sqlite.database) (sql : string)
    : outcome (list Sqlite.row) :=
  if String.eqb sql "PRAGMA table_info(my table)"
  then Raised (mk_exn OperationalError ("near " +:+ quoted "table" +:+ ": syntax error"))
  else Server.small_engine db sql.

End Scenario.

(** ** [query_db] with its local names *)

Module Frame.
Import Sqlite Server.

(** A function body that keeps local names runs on a frame of locals [L]
    beside the state [S] of the world; the frame starts unbound and is
    dropped on exit. *)
Definition with_locals {L S A} (unbound : L) (body : M (L * S) A) : M S A :=
  fun s =>
    match body (unbound, s) with
    | (r, (_, s')) => (r, s')
    end.

(** A step that acts on the world and leaves the frame alone. *)
Definition world {L S A} (m : M S A) : M (L * S) A :=
  fun f =>
    match m (snd f) with
    | (r, s') => (r, (fst f, s'))
    end.

(** [name = value], for a frame of one name. *)
Definition assign {A S} (value : A) : M (option A * S) unit :=
  modify (fun f => (Some value, snd f)).

(** Reading a local name: a name no assignment has bound raises
    [UnboundLocalError]. *)
Definition read {A S} (name : string) : M (option A * S) A :=
  fun f =>
    match fst f with
    | Some v => (Returned v, f)
    | None =>
        (Raised (mk_exn UnboundLocalError
           ("cannot access local variable '" +:+ name
            +:+ "' where it is not associated with a value")), f)
    end.

Section Handlers.

Variable connect_reply : outcome database.
Variable engine : database -> string -> outcome (list row).

(** [query_db(sql)], statement by statement, the frame holding the name
    [conn]. *)
Definition query_db (sql : string) : M (list store_event) string :=
  with_locals None
    (try_finally
       (try_except
          (opened <- world (sqlite3_connect connect_reply) ;;
           assign opened ;;;
           conn <- read "conn" ;;
           result <- world (execute_fetchall engine conn sql) ;;
           ret (join nl (map str_tuple result)))
          (fun e => ret ("Error: " +:+ exn_str e)))
       (conn <- read "conn" ;;
        world conn_close)).

End Handlers.

End Frame.

(** ** Predicates used to state what the handlers, the client and the host
    do and never do *)

Module Observe.
Import Sqlite Server Client.

(** A fetched value whose [repr] stays on one line: every value does,
    provided the text carried for a REAL has no line feed. *)
Definition single_line (v : value) : Prop :=
  match v with
  | VReal literal => contains_char LF literal = false
  | _ => True
  end.

(** Text within ASCII, where [repr] is modelled character by character as
    Python prints it. *)
Fixpoint ascii_text (s : string) : bool :=
  match s with
  | "" => true
  | String a s' => (nat_of_ascii a <? 128)%nat && ascii_text s'
  end.

(** A fetched value whose [repr] the model gives exactly: NULL, an integer,
    a REAL carried by a one-line text, or text within ASCII. *)
Definition plain_value (v : value) : Prop :=
  match v with
  | VReal literal => contains_char LF literal = false
  | VText s => ascii_text s = true
  | _ => True
  end.


(** The statements [get_schema] may issue. *)
Definition schema_statement (sql : string) : Prop :=
  sql = master_sql \/ exists name : string, sql = pragma_sql name.

(** The events of a read of the schema: statements only, all of them schema
    statements. *)
Definition schema_event (ev : store_event) : Prop :=
  exists sql : string, ev = Executed sql /\ schema_statement sql.

(** A message that is not a tool call, or is the call the host makes:
    [query_db] with the single argument [sql]. *)
Definition query_db_only (m : message) : Prop :=
  match m with
  | CallTool name arguments =>
      name = "query_db" /\ exists v : json, arguments = [("sql", v)]
  | _ => True
  end.

(** The computation keeps the property [P] of the state, whether it
    returns or raises. *)
Definition preserves {S A} (P : S -> Prop) (m : M S A) : Prop :=
  forall s : S, P s -> P (snd (m s)).

(** Every tool call on the wire is the host's call of [query_db]. *)
Definition calls_query_db_only (c : MCP_Client) : Prop :=
  Forall query_db_only (sent c).

(** The same property, seen from the host. *)
Definition host_calls_query_db_only (h : Host.host) : Prop :=
  calls_query_db_only (Host.client h).

(** The rowid a row is stored under when its first value is an integer. *)
Definition key (r : row) : Z := fst (keyed r).





End Observe.

(** * Properties *)

(** ** The store *)

Lemma create_database_fresh :
  Sqlite.create_database [] = Returned Sqlite.fixture_store.
Proof. vm_compute. reflexivity. Qed.

Lemma create_database_again :
  Sqlite.create_database Sqlite.fixture_store = Returned Sqlite.fixture_store.
Proof. vm_compute. reflexivity. Qed.

(** ** Strings *)

Lemma prefix_append (a b : string) : String.prefix a (a +:+ b) = true.
Proof.
  induction a as [|c a IH]; simpl.
  - destruct b; reflexivity.
  - destruct (ascii_dec c c) as [_|Hne]; [exact IH | congruence].
Qed.

Lemma prefix_append_more (n s t : string) :
  String.prefix n s = true -> String.prefix n (s +:+ t) = true.
Proof.
  revert s. induction n as [|c n IH]; intros s H.
  - destruct (s +:+ t); reflexivity.
  - destruct s as [|d s]; simpl in *; [discriminate|].
    destruct (ascii_dec c d); [auto | discriminate].
Qed.

Lemma contains_here (n s : string) :
  String.prefix n s = true -> contains n s = true.
Proof. intros H. destruct s; simpl in *; rewrite H; reflexivity. Qed.

Lemma contains_append_left (n p s : string) :
  contains n s = true -> contains n (p +:+ s) = true.
Proof.
  intros H. induction p as [|c p IH]; simpl; [exact H|].
  rewrite IH. apply orb_true_r.
Qed.

Lemma contains_append_right (n s t : string) :
  contains n s = true -> contains n (s +:+ t) = true.
Proof.
  induction s as [|c s IH]; intros H.
  - simpl in H. rewrite orb_false_r in H.
    apply contains_here. apply (prefix_append_more n "" t H).
  - simpl in H. apply orb_true_iff in H as [H|H].
    + apply contains_here. apply (prefix_append_more n (String c s) t H).
    + simpl. rewrite (IH H). apply orb_true_r.
Qed.

Lemma contains_middle (x p s : string) : contains x (p +:+ x +:+ s) = true.
Proof. apply contains_append_left, contains_here, prefix_append. Qed.

(** ** The server handlers *)

Section ServerFacts.
Import Sqlite Server.

Variable engine : database -> string -> outcome (list row).

Lemma query_db_connected (db : database) (sql : string) (s : list store_event) :
  query_db (Returned db) engine sql s =
  (match engine db sql with
   | Returned rows => Returned (join nl (map str_tuple rows))
   | Raised e => Returned ("Error: " +:+ exn_str e)
   end, s ++ [Connected; Executed sql; Closed]).
Proof.
  unfold query_db, sqlite3_connect, try_finally, try_except, bind,
    execute_fetchall, conn_close, modify, ret.
  destruct (engine db sql); simpl; rewrite <- !app_assoc; reflexivity.
Qed.

(** A connection that was opened is closed again, whatever the statement does. *)
Lemma query_db_closes (db : database) (sql : string) (s : list store_event) :
  last (snd (query_db (Returned db) engine sql s)) = Some Closed.
Proof.
  rewrite query_db_connected. cbn [snd].
  change (s ++ [Connected; Executed sql; Closed])
    with (s ++ [Connected; Executed sql] ++ [Closed]).
  rewrite app_assoc. apply last_snoc.
Qed.

Lemma schema_columns_table_info (cols : list column) (cid : Z) (acc : list string) :
  schema_columns (table_info_from cid cols) acc =
  Returned (acc ++ map (fun c => column_line (col_name c) (col_type c)) cols).
Proof.
  revert cid acc. induction cols as [|c cols IH]; intros cid acc; simpl.
  - rewrite app_nil_r. reflexivity.
  - rewrite IH, <- app_assoc. reflexivity.
Qed.

Lemma schema_tables_catalog (conn : database) (tabs : list table) :
  (forall t, In t tabs -> engine conn (pragma_sql (tbl_name t)) = Returned (table_info t)) ->
  forall (acc : list string) (s : list store_event),
    schema_tables engine conn (master_table_names tabs) acc s =
    (Returned (acc ++ flat_map schema_of_table tabs),
     s ++ map (fun t => Executed (pragma_sql (tbl_name t))) tabs).
Proof.
  induction tabs as [|t tabs IH]; intros Hpragma acc s.
  - simpl. unfold ret. rewrite !app_nil_r. reflexivity.
  - cbn [master_table_names map schema_tables].
    unfold bind at 1, lift at 1. cbn [index nth_error].
    unfold bind at 1, execute_fetchall at 1. cbn [py_str].
    rewrite (Hpragma t (or_introl eq_refl)).
    unfold bind at 1, lift at 1, table_info. rewrite schema_columns_table_info.
    fold (master_table_names tabs).
    rewrite IH by (intros t' Ht'; apply Hpragma; right; exact Ht').
    cbn [flat_map schema_of_table map].
    f_equal.
    + f_equal. rewrite <- !app_assoc. reflexivity.
    + rewrite <- app_assoc. reflexivity.
Qed.

Lemma get_schema_catalog (db : database) (s : list store_event) :
  engine db master_sql = Returned (master_table_names db) ->
  (forall t, In t db -> engine db (pragma_sql (tbl_name t)) = Returned (table_info t)) ->
  get_schema (Returned db) engine s =
  (Returned (flat_map schema_of_table db),
   s ++ [Connected; Executed master_sql]
     ++ map (fun t => Executed (pragma_sql (tbl_name t))) db ++ [Closed]).
Proof.
  intros Hmaster Hpragma.
  unfold get_schema, bind at 1, sqlite3_connect.
  unfold bind at 1, execute_fetchall at 1. rewrite Hmaster.
  unfold bind at 1. rewrite (schema_tables_catalog db db Hpragma).
  unfold bind, conn_close, modify, ret. cbn [app].
  f_equal. rewrite <- !app_assoc. reflexivity.
Qed.

End ServerFacts.

(** C1. When executing the SQL text against the store raises, [query_db]
    returns (it does not raise) the string ["Error: "] followed by the
    message of the exception, after closing the connection; the invocation
    is therefore Succeeded, with the error as its content. *)
Theorem query_db_error_is_content :
  forall (engine : Sqlite.database -> string -> outcome (list Sqlite.row))
         (db : Sqlite.database) (sql : string) (e : exn)
         (s : list Server.store_event),
    engine db sql = Raised e ->
    Server.query_db (Returned db) engine sql s =
      (Returned ("Error: " +:+ exn_str e),
       s ++ [Server.Connected; Server.Executed sql; Server.Closed]) /\
    String.prefix "Error: " ("Error: " +:+ exn_str e) = true /\
    Server.invocation_status (fst (Server.query_db (Returned db) engine sql s))
      = Server.Succeeded.
Proof.
  intros engine db sql e s H.
  rewrite query_db_connected, H.
  split; [reflexivity|]. split; [apply prefix_append | reflexivity].
Qed.

Lemma query_db_error_is_content_witness :
  Server.query_db (Returned Sqlite.fixture_store) Server.small_engine "SELEKT" [] =
    (Returned ("Error: near " +:+ String dquote ("SELEKT" +:+ String dquote ": syntax error")),
     [Server.Connected; Server.Executed "SELEKT"; Server.Closed]) /\
  Server.invocation_status
    (fst (Server.query_db (Returned Sqlite.fixture_store) Server.small_engine "SELEKT" []))
    = Server.Succeeded.
Proof.
  destruct (query_db_error_is_content Server.small_engine Sqlite.fixture_store "SELEKT"
              (mk_exn OperationalError
                 ("near " +:+ String dquote ("SELEKT" +:+ String dquote ": syntax error")))
              [] eq_refl) as (Hrun & _ & Hstatus).
  split; [exact Hrun | exact Hstatus].
Defined.

(** C2. When the SQL text executes, [query_db] returns the fetched rows,
    each stringified, joined by newlines. On the fixture store, with the
    engine answering [SELECT * FROM users] by a scan of table [users], the
    result is Succeeded and its content has exactly three lines, one per
    user (ids 1, 2 and 3). The fixture store is what [create_database]
    leaves where no database existed, and its table [users] holds exactly
    the three inserted rows. *)
Theorem query_db_returns_rows :
  (forall (engine : Sqlite.database -> string -> outcome (list Sqlite.row))
          (db : Sqlite.database) (sql : string) (rows : list Sqlite.row)
          (s : list Server.store_event),
      engine db sql = Returned rows ->
      fst (Server.query_db (Returned db) engine sql s) =
        Returned (join nl (map Server.str_tuple rows))) /\
  (forall (engine : Sqlite.database -> string -> outcome (list Sqlite.row))
          (s : list Server.store_event),
      engine Sqlite.fixture_store "SELECT * FROM users" =
        Server.scan "users" Sqlite.fixture_store ->
      exists content : string,
        fst (Server.query_db (Returned Sqlite.fixture_store) engine
               "SELECT * FROM users" s) = Returned content /\
        Server.invocation_status
          (fst (Server.query_db (Returned Sqlite.fixture_store) engine
                  "SELECT * FROM users" s)) = Server.Succeeded /\
        lines content =
          [ "(1, '张三', 25, 'zhangsan@example.com')";
            "(2, '李四', 30, 'lisi@example.com')";
            "(3, '王五', 35, 'wangwu@example.com')" ] /\
        length (lines content) = 3%nat) /\
  Sqlite.create_database [] = Returned Sqlite.fixture_store /\
  Server.scan "users" Sqlite.fixture_store = Returned Sqlite.users.
Proof.
  split; [|split; [|split; vm_compute; reflexivity]].
  - intros engine db sql rows s H. rewrite query_db_connected, H. reflexivity.
  - intros engine s H.
    rewrite query_db_connected, H.
    eexists. split; [reflexivity|]. split; [reflexivity|].
    split; vm_compute; reflexivity.
Qed.

Lemma query_db_returns_rows_witness :
  fst (Server.query_db (Returned Sqlite.fixture_store) Server.small_engine
         "SELECT * FROM orders" []) =
    Returned (join nl (map Server.str_tuple Sqlite.orders)) /\
  exists content : string,
    fst (Server.query_db (Returned Sqlite.fixture_store) Server.small_engine
           "SELECT * FROM users" []) = Returned content /\
    length (lines content) = 3%nat.
Proof.
  destruct query_db_returns_rows as (Hrows & Husers & _). split.
  - apply (Hrows Server.small_engine Sqlite.fixture_store "SELECT * FROM orders"
             Sqlite.orders []). vm_compute. reflexivity.
  - destruct (Husers Server.small_engine []) as (content & Hrun & _ & _ & Hlen).
    + vm_compute. reflexivity.
    + exists content. split; [exact Hrun | exact Hlen].
Defined.

(** C3. [sql_prompt] is a function of the question alone: for every
    question X the rendering is one fixed text, X verbatim, and a second
    fixed text; the rendering contains X and the two table schemas; and two
    renderings of the same X are the same string. The handler is a plain
    function: it reads and writes no state. *)
Theorem sql_prompt_embeds_question :
  forall X : string,
    Server.sql_prompt X = Server.prompt_head +:+ X +:+ Server.prompt_tail /\
    contains X (Server.sql_prompt X) = true /\
    contains "users(id, name, age, email)" (Server.sql_prompt X) = true /\
    contains "orders(id, user_id, product_name, price, order_date)"
      (Server.sql_prompt X) = true /\
    map Server.sql_prompt [X; X] =
      [ Server.prompt_head +:+ X +:+ Server.prompt_tail;
        Server.prompt_head +:+ X +:+ Server.prompt_tail ].
Proof.
  intros X. unfold Server.sql_prompt. repeat split.
  - apply contains_middle.
  - do 2 apply contains_append_left. vm_compute. reflexivity.
  - do 2 apply contains_append_left. vm_compute. reflexivity.
Qed.

Example sql_prompt_sample :
  Server.sql_prompt "列出所有用户" =
  "请将以下问题转换为SQL查询：" +:+ nl +:+
  "问题: 列出所有用户" +:+ nl +:+ nl +:+
  "可用的表结构:" +:+ nl +:+
  "- users(id, name, age, email)" +:+ nl +:+
  "- orders(id, user_id, product_name, price, order_date)" +:+ nl +:+ nl +:+
  "请生成标准的SQLite SQL语句，不要生成其他内容，只返回SQL语句本身。".
Proof. vm_compute. reflexivity. Qed.

(** Where the engine answers the catalog query and [PRAGMA table_info] for
    every table of the catalog, reading [db://schema] gives, for every table
    in order, its header line followed by one line ["  - column (type)"] per
    column. On the fixture store the items are the two headers with their
    columns, and their concatenation mentions both headers and every
    declared column. *)
Theorem get_schema_lists_catalog :
  (forall (engine : Sqlite.database -> string -> outcome (list Sqlite.row))
          (db : Sqlite.database) (s : list Server.store_event),
      engine db Server.master_sql = Returned (Sqlite.master_table_names db) ->
      (forall t, In t db ->
         engine db (Server.pragma_sql (Sqlite.tbl_name t)) = Returned (Sqlite.table_info t)) ->
      fst (Server.get_schema (Returned db) engine s) =
        Returned (flat_map Server.schema_of_table db)) /\
  (forall (engine : Sqlite.database -> string -> outcome (list Sqlite.row))
          (s : list Server.store_event),
      engine Sqlite.fixture_store Server.master_sql =
        Returned (Sqlite.master_table_names Sqlite.fixture_store) ->
      (forall t, In t Sqlite.fixture_store ->
         engine Sqlite.fixture_store (Server.pragma_sql (Sqlite.tbl_name t)) =
           Returned (Sqlite.table_info t)) ->
      exists items : list string,
        fst (Server.get_schema (Returned Sqlite.fixture_store) engine s) = Returned items /\
        items =
          [ "表 users:"; "  - id (INTEGER)"; "  - name (TEXT)"; "  - age (INTEGER)";
            "  - email (TEXT)";
            "表 orders:"; "  - id (INTEGER)"; "  - user_id (INTEGER)";
            "  - product_name (TEXT)"; "  - price (REAL)"; "  - order_date (TEXT)" ] /\
        contains (Server.table_header "users") (join "" items) = true /\
        contains (Server.table_header "orders") (join "" items) = true /\
        forallb (fun c => contains (Sqlite.col_name c) (join "" items))
          (Sqlite.users_columns ++ Sqlite.orders_columns) = true) /\
  Sqlite.create_database [] = Returned Sqlite.fixture_store.
Proof.
  split; [|split; [|vm_compute; reflexivity]].
  - intros engine db s Hmaster Hpragma.
    rewrite (get_schema_catalog engine db s Hmaster Hpragma). reflexivity.
  - intros engine s Hmaster Hpragma.
    rewrite (get_schema_catalog engine _ s Hmaster Hpragma).
    eexists. split; [reflexivity|].
    repeat split; vm_compute; reflexivity.
Qed.

Lemma get_schema_lists_catalog_witness :
  fst (Server.get_schema (Returned Sqlite.fixture_store) Server.small_engine []) =
    Returned (flat_map Server.schema_of_table Sqlite.fixture_store) /\
  exists items : list string,
    fst (Server.get_schema (Returned Sqlite.fixture_store) Server.small_engine []) =
      Returned items /\
    length items = 11%nat.
Proof.
  assert (Hpragma : forall t, In t Sqlite.fixture_store ->
            Server.small_engine Sqlite.fixture_store
              (Server.pragma_sql (Sqlite.tbl_name t)) = Returned (Sqlite.table_info t)).
  { intros t [<- | [<- | []]]; vm_compute; reflexivity. }
  destruct get_schema_lists_catalog as (Hany & Hfixture & _). split.
  - apply (Hany Server.small_engine Sqlite.fixture_store []); [reflexivity | exact Hpragma].
  - destruct (Hfixture Server.small_engine [] eq_refl Hpragma)
      as (items & Hrun & Hitems & _).
    exists items. split; [exact Hrun|]. rewrite Hitems. reflexivity.
Defined.

(** ** Concrete runs of the handlers *)

Example query_db_selekt :
  Server.query_db (Returned Sqlite.fixture_store) Server.small_engine "SELEKT" [] =
  (Returned ("Error: near " +:+ String dquote ("SELEKT" +:+ String dquote ": syntax error")),
   [Server.Connected; Server.Executed "SELEKT"; Server.Closed]).
Proof. vm_compute. reflexivity. Qed.

Example query_db_no_store :
  Server.query_db (Raised (mk_exn OperationalError "unable to open database file"))
    Server.small_engine "SELECT 1" [] =
  (Raised (mk_exn UnboundLocalError
     "cannot access local variable 'conn' where it is not associated with a value"), []).
Proof. vm_compute. reflexivity. Qed.

Example get_schema_fixture :
  Server.get_schema (Returned Sqlite.fixture_store) Server.small_engine [] =
  (Returned
     [ "表 users:"; "  - id (INTEGER)"; "  - name (TEXT)"; "  - age (INTEGER)";
       "  - email (TEXT)";
       "表 orders:"; "  - id (INTEGER)"; "  - user_id (INTEGER)";
       "  - product_name (TEXT)"; "  - price (REAL)"; "  - order_date (TEXT)" ],
   [ Server.Connected; Server.Executed Server.master_sql;
     Server.Executed "PRAGMA table_info(users)";
     Server.Executed "PRAGMA table_info(orders)"; Server.Closed ]).
Proof. vm_compute. reflexivity. Qed.

(** ** The client *)

Section ClientFacts.
Import Client.

Variable peer : Peer.
Variable model_dump_json : Content -> string.

Lemma require_session_none (c : MCP_Client) :
  session c = None -> require_session c = (Raised not_connected, c).
Proof. intros H. unfold require_session, bind, get. rewrite H. reflexivity. Qed.

Lemma require_session_some (c : MCP_Client) (s : ClientSession) :
  session c = Some s -> require_session c = (Returned s, c).
Proof. intros H. unfold require_session, bind, get. rewrite H. reflexivity. Qed.

Lemma disconnect_state (c : MCP_Client) :
  disconnect c =
  (Returned tt, mk_MCP_Client (url c) None [] (sent c ++ map Release (exit_stack c))).
Proof. reflexivity. Qed.

(** Once started, the generator hands out the rest of the response without
    touching the client. *)
Lemma anext_suspended (items : list json) (c : MCP_Client) :
  anext peer (GenSuspended items) c = (Returned (yield_from items), c).
Proof. reflexivity. Qed.

(** What [connect] does, by the first step that fails. *)
Lemma connect_cases (c : MCP_Client) :
  connect peer c =
  let failed e :=
    Raised (mk_exn ConnectionError ("Failed to connect to MCP server: " +:+ exn_str e)) in
  let opened := sent c ++ [OpenSse (url c)] in
  match sse_reply peer (url c) with
  | Raised e =>
      (failed e, mk_MCP_Client (url c) None [] (opened ++ map Release (exit_stack c)))
  | Returned _ =>
      match session_reply peer with
      | Raised e =>
          (failed e,
           mk_MCP_Client (url c) None []
             (opened ++ map Release (StreamsContext :: exit_stack c)))
      | Returned _ =>
          let stack := SessionContext :: StreamsContext :: exit_stack c in
          match initialize_reply peer with
          | Raised e =>
              (failed e,
               mk_MCP_Client (url c) None [] ((opened ++ [Initialize]) ++ map Release stack))
          | Returned _ =>
              match list_tools_reply peer with
              | Raised e =>
                  (failed e,
                   mk_MCP_Client (url c) None []
                     (((opened ++ [Initialize]) ++ [ListTools]) ++ map Release stack))
              | Returned _ =>
                  (Returned tt,
                   mk_MCP_Client (url c) (Some (mk_ClientSession (url c))) stack
                     ((opened ++ [Initialize]) ++ [ListTools]))
              end
          end
      end
  end.
Proof.
  unfold connect, try_except, bind, get, send, enter_async_context, set_session,
    disconnect, aclose, modify, lift, raise, ret.
  cbn.
  destruct (sse_reply peer (url c)); cbn; [|reflexivity].
  destruct (session_reply peer); cbn; [|reflexivity].
  destruct (initialize_reply peer); cbn; [|reflexivity].
  destruct (list_tools_reply peer); cbn; reflexivity.
Qed.

Lemma call_tool_connected (c : MCP_Client) (s : ClientSession) (name : string)
    (arguments : option (list (string * json))) :
  session c = Some s ->
  call_tool peer model_dump_json name arguments c =
  (match call_tool_reply peer name (get_or [] arguments) with
   | Returned response =>
       Returned (mk_ToolInvocationResult
                   (join nl (map model_dump_json (result_content response)))
                   (if isError response then 1 else 0)%Z)
   | Raised e => Raised e
   end,
   mk_MCP_Client (url c) (session c) (exit_stack c)
     (sent c ++ [CallTool name (get_or [] arguments)])).
Proof.
  intros H. unfold call_tool, bind at 1. rewrite (require_session_some c s H).
  unfold bind, send, modify, lift, ret. cbn.
  destruct (call_tool_reply peer name (get_or [] arguments)); reflexivity.
Qed.

End ClientFacts.

(** C6. [connect] either leaves the client connected or raises
    [ConnectionError]. Whichever step fails (opening the stream, creating
    the session, the initialize handshake, or the tool listing that checks
    the connection), it raises [ConnectionError] carrying the message of the
    failure, after leaving every context it had entered and resetting the
    stored session to [None]. *)
Theorem connect_fails_atomically :
  forall (peer : Client.Peer) (c : Client.MCP_Client),
    ((fst (Client.connect peer c) = Returned tt /\
      Client.session (snd (Client.connect peer c)) =
        Some (Client.mk_ClientSession (Client.url c)))
     \/
     (exists e,
        fst (Client.connect peer c) =
          Raised (mk_exn ConnectionError
                    ("Failed to connect to MCP server: " +:+ exn_str e)) /\
        Client.session (snd (Client.connect peer c)) = None /\
        Client.exit_stack (snd (Client.connect peer c)) = [])) /\
    (forall e : exn,
       Client.sse_reply peer (Client.url c) = Raised e \/
       (Client.sse_reply peer (Client.url c) = Returned tt /\
        (Client.session_reply peer = Raised e \/
         (Client.session_reply peer = Returned tt /\
          (Client.initialize_reply peer = Raised e \/
           (Client.initialize_reply peer = Returned tt /\
            Client.list_tools_reply peer = Raised e))))) ->
       fst (Client.connect peer c) =
         Raised (mk_exn ConnectionError
                   ("Failed to connect to MCP server: " +:+ exn_str e)) /\
       Client.session (snd (Client.connect peer c)) = None /\
       Client.exit_stack (snd (Client.connect peer c)) = [] /\
       Client.url (snd (Client.connect peer c)) = Client.url c /\
       (Client.sse_reply peer (Client.url c) = Returned tt ->
        In (Client.Release Client.StreamsContext)
           (Client.sent (snd (Client.connect peer c)))) /\
       (Client.sse_reply peer (Client.url c) = Returned tt ->
        Client.session_reply peer = Returned tt ->
        In (Client.Release Client.SessionContext)
           (Client.sent (snd (Client.connect peer c))))).
Proof.
  intros peer c. rewrite connect_cases. cbv zeta. split.
  - destruct (Client.sse_reply peer (Client.url c)) as [[]|e]; [|right; exists e; auto].
    destruct (Client.session_reply peer) as [[]|e]; [|right; exists e; auto].
    destruct (Client.initialize_reply peer) as [[]|e]; [|right; exists e; auto].
    destruct (Client.list_tools_reply peer) as [tools|e]; [|right; exists e; auto].
    left. auto.
  - intros e H.
    destruct H as [H | [H1 [H | [H2 [H | [H3 H]]]]]].
    + rewrite H. cbn. repeat split; intros; congruence.
    + rewrite H1, H. cbn. repeat split; intros; try congruence.
      rewrite in_app_iff. right. left. reflexivity.
    + rewrite H1, H2, H. cbn. repeat split; intros; rewrite in_app_iff; right; cbn; auto.
    + rewrite H1, H2, H3, H. cbn. repeat split; intros; rewrite in_app_iff; right; cbn; auto.
Qed.

Lemma connect_fails_atomically_witness :
  Client.connect Scenario.mute_peer (Client.init "127.0.0.1" 8100) =
  (Raised (mk_exn ConnectionError
     "Failed to connect to MCP server: Timed out while waiting for response"),
   Client.mk_MCP_Client "http://127.0.0.1:8100/sse" None []
     [ Client.OpenSse "http://127.0.0.1:8100/sse"; Client.Initialize;
       Client.Release Client.SessionContext; Client.Release Client.StreamsContext ]).
Proof.
  destruct (connect_fails_atomically Scenario.mute_peer (Client.init "127.0.0.1" 8100))
    as [_ Hfails].
  destruct (Hfails (mk_exn McpError "Timed out while waiting for response"))
    as (Hraised & _).
  - right. split; [reflexivity|]. right. split; [reflexivity|]. left. reflexivity.
  - vm_compute in Hraised. vm_compute. reflexivity.
Defined.

(** A run of [connect] in which no step fails leaves the client connected,
    both contexts on the exit stack. *)
Lemma connect_succeeds (peer : Client.Peer) (c : Client.MCP_Client) (tools : list Client.Tool) :
  Client.sse_reply peer (Client.url c) = Returned tt ->
  Client.session_reply peer = Returned tt ->
  Client.initialize_reply peer = Returned tt ->
  Client.list_tools_reply peer = Returned tools ->
  fst (Client.connect peer c) = Returned tt /\
  Client.session (snd (Client.connect peer c)) = Some (Client.mk_ClientSession (Client.url c)) /\
  Client.exit_stack (snd (Client.connect peer c)) =
    Client.SessionContext :: Client.StreamsContext :: Client.exit_stack c.
Proof.
  intros H1 H2 H3 H4. rewrite connect_cases. cbv zeta.
  rewrite H1, H2, H3, H4. repeat split.
Qed.

(** C9. While the client holds no session, [list_tools], [call_tool],
    [get_prompt] and the first pull on [get_resource] raise
    [ConnectionError] and leave the client, its wire included, as it was:
    nothing is sent. A new client and a disconnected client hold no
    session. *)
Theorem not_connected_raises :
  forall (peer : Client.Peer) (dump : Client.Content -> string) (c : Client.MCP_Client)
         (name uri : string) (arguments : option (list (string * json)))
         (kwargs : list (string * json)),
    Client.session c = None ->
    Client.not_connected = mk_exn ConnectionError "Not connected to MCP server" /\
    Client.list_tools peer c = (Raised Client.not_connected, c) /\
    Client.call_tool peer dump name arguments c = (Raised Client.not_connected, c) /\
    Client.get_prompt peer name kwargs c = (Raised Client.not_connected, c) /\
    Client.anext peer (Client.get_resource uri) c = (Raised Client.not_connected, c) /\
    (forall host port, Client.session (Client.init host port) = None) /\
    (forall c0, Client.session (snd (Client.disconnect c0)) = None).
Proof.
  intros peer dump c name uri arguments kwargs H.
  split; [reflexivity|].
  unfold Client.list_tools, Client.call_tool, Client.get_prompt, Client.get_resource,
    Client.anext.
  unfold bind. rewrite (require_session_none c H).
  repeat split.
Qed.

Lemma not_connected_raises_witness :
  Client.call_tool Scenario.live_peer Scenario.dump "query_db"
    (Some [("sql", JStr "SELECT 1")]) (Client.init "127.0.0.1" 8100) =
  (Raised Client.not_connected, Client.init "127.0.0.1" 8100).
Proof.
  exact (proj1 (proj2 (proj2
    (not_connected_raises Scenario.live_peer Scenario.dump (Client.init "127.0.0.1" 8100)
       "query_db" "db://schema" (Some [("sql", JStr "SELECT 1")]) [] eq_refl)))).
Defined.

(** C10. On a connected client, [call_tool] returns exactly when the
    session's call returns a response, and the result it returns has
    [error_code] 1 when the response is marked as an error and 0 otherwise
    (no other value), and as content the JSON serialization of the content
    items of the response joined by newlines. *)
Theorem call_tool_result :
  forall (peer : Client.Peer) (dump : Client.Content -> string) (c : Client.MCP_Client)
         (s : Client.ClientSession) (name : string)
         (arguments : option (list (string * json))),
    Client.session c = Some s ->
    (forall response,
       Client.call_tool_reply peer name (get_or [] arguments) = Returned response ->
       fst (Client.call_tool peer dump name arguments c) =
         Returned (Client.mk_ToolInvocationResult
                     (join nl (map dump (Client.result_content response)))
                     (if Client.isError response then 1 else 0)%Z)) /\
    (forall r,
       fst (Client.call_tool peer dump name arguments c) = Returned r ->
       exists response,
         Client.call_tool_reply peer name (get_or [] arguments) = Returned response /\
         Client.content r = join nl (map dump (Client.result_content response)) /\
         (Client.isError response = true -> Client.error_code r = 1%Z) /\
         (Client.isError response = false -> Client.error_code r = 0%Z) /\
         (Client.error_code r = 0%Z \/ Client.error_code r = 1%Z)).
Proof.
  intros peer dump c s name arguments H.
  rewrite (call_tool_connected peer dump c s name arguments H). cbn [fst].
  split.
  - intros response Hr. rewrite Hr. reflexivity.
  - intros r Hr.
    destruct (Client.call_tool_reply peer name (get_or [] arguments)) as [response|e];
      [|discriminate].
    injection Hr as <-. exists response. cbn.
    split; [reflexivity|]. split; [reflexivity|].
    destruct (Client.isError response); repeat split; auto; discriminate.
Qed.

Lemma call_tool_result_witness :
  fst (Client.call_tool Scenario.live_peer Scenario.dump "query_db"
         (Some [("sql", JStr "SELECT COUNT(*) FROM users")])
         (snd (Client.connect Scenario.live_peer (Client.init "127.0.0.1" 8100)))) =
  Returned (Client.mk_ToolInvocationResult (Scenario.dump (Client.TextContent "(3,)")) 0).
Proof.
  destruct (call_tool_result Scenario.live_peer Scenario.dump
              (snd (Client.connect Scenario.live_peer (Client.init "127.0.0.1" 8100)))
              (Client.mk_ClientSession "http://127.0.0.1:8100/sse") "query_db"
              (Some [("sql", JStr "SELECT COUNT(*) FROM users")]) eq_refl) as [Hreturns _].
  exact (Hreturns (Client.mk_CallToolResult [Client.TextContent "(3,)"] false) eq_refl).
Defined.

(** ** The host *)

Section HostFacts.
Import Client Host.

Variable peer : Peer.
Variable model_dump_json : Content -> string.
Variable llm : Collaborators.

Lemma main_loop_quit (tools : list ToolDef) (q : string) (rest : list string) (h : host) :
  String.eqb (lower q) "q" = true ->
  main_loop peer model_dump_json llm tools (q :: rest) h =
  (Returned tt, mk_host (client h) (journal h ++ [ReadLine q])).
Proof. intros Hq. cbn. unfold bind, log, modify. rewrite Hq. reflexivity. Qed.

Lemma main_loop_turn (tools : list ToolDef) (q : string) (rest : list string) (h : host) :
  String.eqb (lower q) "q" = false ->
  main_loop peer model_dump_json llm tools (q :: rest) h =
  match iteration peer model_dump_json llm tools q
          (mk_host (client h) (journal h ++ [ReadLine q])) with
  | (Returned _, h') => main_loop peer model_dump_json llm tools rest h'
  | (Raised e, h') => (Raised e, h')
  end.
Proof. intros Hq. cbn. unfold bind at 1, log, modify. rewrite Hq. reflexivity. Qed.

(** Answered questions are consumed, and the loop goes on with the rest. *)
Lemma main_loop_answered (tools : list ToolDef) (qs rest : list string) (h h' : host) :
  answered peer model_dump_json llm tools qs h h' ->
  main_loop peer model_dump_json llm tools (qs ++ rest) h =
  main_loop peer model_dump_json llm tools rest h'.
Proof.
  induction 1 as [h | q qs h h1 h2 h3 Hq Hlog Hturn _ IH]; [reflexivity|].
  rewrite <- app_comm_cons, (main_loop_turn tools q (qs ++ rest) h Hq).
  injection Hlog as <-. rewrite Hturn. exact IH.
Qed.

(** An iteration that raises ends the loop with that exception, in the
    state the iteration left. *)
Lemma main_loop_raises (tools : list ToolDef) (q : string) (rest : list string)
    (h h' : host) (e : exn) :
  String.eqb (lower q) "q" = false ->
  iteration peer model_dump_json llm tools q
    (mk_host (client h) (journal h ++ [ReadLine q])) = (Raised e, h') ->
  main_loop peer model_dump_json llm tools (q :: rest) h = (Raised e, h').
Proof. intros Hq Hturn. rewrite (main_loop_turn tools q rest h Hq), Hturn. reflexivity. Qed.

Lemma main_after_startup (inputs : list string) (h h1 : host) (tools : list ToolDef) :
  startup peer h = (Returned tools, h1) ->
  main peer model_dump_json llm inputs h =
  match main_loop peer model_dump_json llm tools inputs h1 with
  | (Returned _, h2) =>
      (Returned tt, mk_host (snd (disconnect (client h2))) (journal h2))
  | (Raised e, h2) =>
      (Returned tt,
       mk_host (snd (disconnect (client h2))) (journal h2 ++ [ErrorLogged (exn_str e)]))
  end.
Proof.
  intros Hstart. unfold main, try_finally, try_except, bind. rewrite Hstart.
  destruct (main_loop peer model_dump_json llm tools inputs h1) as [[[]|e] h2]; reflexivity.
Qed.

End HostFacts.

(** C5, as the code has it. An exception raised in any iteration (a failed
    translation, a session error at the prompt or at the tool invocation,
    a failed explanation) is not local to the iteration: whatever lines
    remain on standard input, [main] leaves the loop, logs the error once,
    disconnects and returns; no later question is read and nothing further
    is invoked. *)
Theorem iteration_error_ends_session :
  forall (peer : Client.Peer) (dump : Client.Content -> string) (llm : Host.Collaborators)
         (tools : list Client.ToolDef) (answered_questions : list string) (q : string)
         (rest : list string) (h h1 h2 h3 : Host.host) (e : exn),
    Host.startup peer h = (Returned tools, h1) ->
    Host.answered peer dump llm tools answered_questions h1 h2 ->
    String.eqb (lower q) "q" = false ->
    Host.iteration peer dump llm tools q
      (Host.mk_host (Host.client h2) (Host.journal h2 ++ [Host.ReadLine q])) = (Raised e, h3) ->
    Host.main peer dump llm (answered_questions ++ q :: rest) h =
      (Returned tt,
       Host.mk_host
         (Client.mk_MCP_Client (Client.url (Host.client h3)) None []
            (Client.sent (Host.client h3)
             ++ map Client.Release (Client.exit_stack (Host.client h3))))
         (Host.journal h3 ++ [Host.ErrorLogged (exn_str e)])).
Proof.
  intros peer dump llm tools qs q rest h h1 h2 h3 e Hstart Hanswered Hq Hturn.
  rewrite (main_after_startup peer dump llm _ h h1 tools Hstart).
  rewrite (main_loop_answered peer dump llm tools qs (q :: rest) h1 h2 Hanswered).
  rewrite (main_loop_raises peer dump llm tools q rest h2 h3 e Hq Hturn).
  reflexivity.
Qed.

Lemma iteration_error_ends_session_witness :
  Host.main Scenario.live_peer Scenario.dump Scenario.picky_llm
    (["how many users are there"] ++ "list all orders" :: ["how many users are there"; "q"])
    Host.fresh_host =
  (Returned tt,
   Host.mk_host
     (Client.mk_MCP_Client "http://127.0.0.1:8100/sse" None []
        [ Client.OpenSse "http://127.0.0.1:8100/sse"; Client.Initialize; Client.ListTools;
          Client.ReadResource "db://schema"; Client.ListTools;
          Client.GetPrompt "sql_prompt" [("question", JStr "how many users are there")];
          Client.CallTool "query_db" [("sql", JStr "SELECT COUNT(*) FROM users")];
          Client.GetPrompt "sql_prompt" [("question", JStr "list all orders")];
          Client.Release Client.SessionContext; Client.Release Client.StreamsContext ])
     [ Host.SchemaLogged (JStr "表 users:"); Host.SchemaLogged (JStr "  - id (INTEGER)");
       Host.ReadLine "how many users are there";
       Host.Translating (Server.sql_prompt "how many users are there");
       Host.Explaining
         (Host.explain_request
            (Client.mk_ToolInvocationResult (Scenario.dump (Client.TextContent "(3,)")) 0));
       Host.ExplanationLogged (Some "共有 3 位用户");
       Host.ReadLine "list all orders";
       Host.Translating (Server.sql_prompt "list all orders");
       Host.ErrorLogged "'NoneType' object is not subscriptable" ]).
Proof.
  pose (tools := [Client.tool_def "http://127.0.0.1:8100/sse" Scenario.query_db_tool]).
  pose (h1 := snd (Host.startup Scenario.live_peer Host.fresh_host)).
  pose (h1' := Host.mk_host (Host.client h1)
                 (Host.journal h1 ++ [Host.ReadLine "how many users are there"])).
  pose (h2 := snd (Host.iteration Scenario.live_peer Scenario.dump Scenario.picky_llm tools
                     "how many users are there" h1')).
  pose (h3 := snd (Host.iteration Scenario.live_peer Scenario.dump Scenario.picky_llm tools
                     "list all orders"
                     (Host.mk_host (Host.client h2)
                        (Host.journal h2 ++ [Host.ReadLine "list all orders"])))).
  rewrite (iteration_error_ends_session Scenario.live_peer Scenario.dump Scenario.picky_llm
             tools ["how many users are there"] "list all orders"
             ["how many users are there"; "q"] Host.fresh_host h1 h2 h3
             (mk_exn TypeError "'NoneType' object is not subscriptable")).
  - vm_compute. reflexivity.
  - vm_compute. reflexivity.
  - apply (Host.answered_cons _ _ _ _ _ _ h1 h1' h2 h2).
    + vm_compute. reflexivity.
    + vm_compute. reflexivity.
    + vm_compute. reflexivity.
    + apply Host.answered_nil.
  - vm_compute. reflexivity.
  - vm_compute. reflexivity.
Defined.

(** C5, as stated, fails. The reasoning collaborator declines to call a
    tool for the first question; the loop does not report and go on: the
    second question is never read, the session is closed, and [main]
    returns. *)
Lemma iteration_error_is_not_local :
  let run :=
    Host.main Scenario.live_peer Scenario.dump Scenario.picky_llm
      ["list all orders"; "how many users are there"; "q"] Host.fresh_host in
  ~ Host.error_is_local Scenario.live_peer Scenario.dump Scenario.picky_llm /\
  fst run = Returned tt /\
  Host.journal (snd run) =
    [ Host.SchemaLogged (JStr "表 users:"); Host.SchemaLogged (JStr "  - id (INTEGER)");
      Host.ReadLine "list all orders";
      Host.Translating (Server.sql_prompt "list all orders");
      Host.ErrorLogged "'NoneType' object is not subscriptable" ] /\
  ~ In (Host.ReadLine "how many users are there") (Host.journal (snd run)) /\
  Client.session (Host.client (snd run)) = None.
Proof.
  cbv zeta. split; [|split; [|split; [|split]]].
  - intros Hlocal.
    pose (h1 := snd (Host.startup Scenario.live_peer Host.fresh_host)).
    pose (h1' := Host.mk_host (Host.client h1)
                   (Host.journal h1 ++ [Host.ReadLine "list all orders"])).
    specialize (Hlocal
      [Client.tool_def "http://127.0.0.1:8100/sse" Scenario.query_db_tool]
      "list all orders" ["q"] h1
      (snd (Host.iteration Scenario.live_peer Scenario.dump Scenario.picky_llm
              [Client.tool_def "http://127.0.0.1:8100/sse" Scenario.query_db_tool]
              "list all orders" h1'))
      (mk_exn TypeError "'NoneType' object is not subscriptable")
      eq_refl).
    assert (Hraises :
      Host.iteration Scenario.live_peer Scenario.dump Scenario.picky_llm
        [Client.tool_def "http://127.0.0.1:8100/sse" Scenario.query_db_tool]
        "list all orders" h1' =
      (Raised (mk_exn TypeError "'NoneType' object is not subscriptable"),
       snd (Host.iteration Scenario.live_peer Scenario.dump Scenario.picky_llm
              [Client.tool_def "http://127.0.0.1:8100/sse" Scenario.query_db_tool]
              "list all orders" h1'))) by (vm_compute; reflexivity).
    specialize (Hlocal Hraises).
    apply (f_equal fst) in Hlocal. vm_compute in Hlocal. discriminate Hlocal.
  - vm_compute. reflexivity.
  - vm_compute. reflexivity.
  - vm_compute. intros H. repeat (destruct H as [H|H]; [discriminate H|]). exact H.
  - vm_compute. reflexivity.
Qed.

(** ** The Capability Registry *)

Lemma forallb_fails {A} (f : A -> bool) (l : list A) (x : A) :
  In x l -> f x = false -> forallb f l = false.
Proof.
  intros Hin Hx. destruct (forallb f l) eqn:Hall; [|reflexivity].
  rewrite forallb_forall in Hall. rewrite (Hall x Hin) in Hx. discriminate.
Qed.

(** C7. When the arguments of an invocation miss a required parameter of
    the tool, or give a parameter a value that is not of its declared type,
    [invoke_tool] fails with InvalidArguments and hands back the state
    untouched, whatever the handler would have done to it: the handler does
    not run. *)
Theorem invalid_arguments_before_handler :
  forall (W : Type) (reg : Registry.registry W) (key : string)
         (arguments : list (string * json)) (td : Client.ToolDef)
         (h : Registry.handler W) (w : W) (p : Client.ToolParameter),
    Registry.lookup_tool W key reg = Some (td, h) ->
    In p (Client.parameters td) ->
    (Client.required p = true /\ dict_get (Client.name p) arguments = None) \/
    (exists v, dict_get (Client.name p) arguments = Some v /\
               Registry.json_type_name v <> Client.parameter_type p) ->
    Registry.invoke_tool W reg key arguments w = Some (Registry.Fails Registry.InvalidArguments, w).
Proof.
  intros W reg key arguments td h w p Hfound Hp Hbad.
  unfold Registry.invoke_tool. rewrite Hfound.
  assert (Hinvalid : Registry.valid_arguments (Client.parameters td) arguments = false).
  { apply (forallb_fails _ _ p Hp). unfold Registry.argument_ok.
    destruct Hbad as [[Hreq Hmissing] | (v & Hv & Htype)].
    - rewrite Hmissing, Hreq. reflexivity.
    - rewrite Hv. apply String.eqb_neq. exact Htype. }
  rewrite Hinvalid. reflexivity.
Qed.

Lemma invalid_arguments_before_handler_witness :
  Registry.invoke_tool (list Server.store_event)
    [(Registry.query_db_def,
      Registry.query_db_handler (Returned Sqlite.fixture_store) Server.small_engine)]
    "query_db" [] [] = Some (Registry.Fails Registry.InvalidArguments, []) /\
  Registry.invoke_tool (list Server.store_event)
    [(Registry.query_db_def,
      Registry.query_db_handler (Returned Sqlite.fixture_store) Server.small_engine)]
    "query_db" [("sql", JNum 7)] [] = Some (Registry.Fails Registry.InvalidArguments, []).
Proof.
  split.
  - apply (invalid_arguments_before_handler _ _ _ _ Registry.query_db_def
             (Registry.query_db_handler (Returned Sqlite.fixture_store) Server.small_engine)
             [] (Client.mk_ToolParameter "sql" "string" "" true None)).
    + reflexivity.
    + left. reflexivity.
    + left. split; reflexivity.
  - apply (invalid_arguments_before_handler _ _ _ _ Registry.query_db_def
             (Registry.query_db_handler (Returned Sqlite.fixture_store) Server.small_engine)
             [] (Client.mk_ToolParameter "sql" "string" "" true None)).
    + reflexivity.
    + left. reflexivity.
    + right. exists (JNum 7). split; [reflexivity | discriminate].
Defined.

(** With valid arguments the same handler runs and leaves its trace. *)
Example valid_arguments_run_handler :
  Registry.invoke_tool (list Server.store_event)
    [(Registry.query_db_def,
      Registry.query_db_handler (Returned Sqlite.fixture_store) Server.small_engine)]
    "query_db" [("sql", JStr "SELEKT")] [] =
  Some (Registry.ToolContent
          ("Error: near " +:+ String dquote ("SELEKT" +:+ String dquote ": syntax error")),
        [Server.Connected; Server.Executed "SELEKT"; Server.Closed]).
Proof. vm_compute. reflexivity. Qed.

(** ** The Session *)

Section SessionFacts.
Import Session.

Lemma closed_is_inert (s : Session) (e : event) :
  state s = Closed -> step s e = s.
Proof. intros H. unfold step. rewrite H. reflexivity. Qed.

Lemma run_closed (events : list event) (s : Session) :
  state s = Closed -> run s events = s.
Proof.
  revert s. induction events as [|e events IH]; intros s H; [reflexivity|].
  unfold run. cbn [fold_left]. rewrite (closed_is_inert s e H). apply IH, H.
Qed.

Lemma step_close (s : Session) :
  state s <> Closed -> step s Close = cancel_all s.
Proof. intros H. unfold step. destruct (state s); [reflexivity..|congruence]. Qed.

Lemma resolutions_of_app (id : nat) (l1 l2 : list (nat * resolution)) :
  resolutions_of id (l1 ++ l2) = resolutions_of id l1 ++ resolutions_of id l2.
Proof. unfold resolutions_of. rewrite List.filter_app, map_app. reflexivity. Qed.

(** In a table with one entry per key, cancelling every entry delivers
    exactly one cancellation under each key. *)
Lemma cancellations_once (id : nat) (inv : Invocation) (entries : list (nat * Invocation)) :
  NoDup (map fst entries) ->
  In (id, inv) entries ->
  resolutions_of id (map (fun entry => (fst entry, Cancelled)) entries) = [Cancelled].
Proof.
  unfold resolutions_of.
  induction entries as [|[k v] entries IH]; intros Hnodup Hin; [destruct Hin|].
  cbn [map fst] in Hnodup. apply NoDup_cons in Hnodup as [Hfresh Hnodup].
  cbn [map List.filter fst].
  destruct Hin as [Heq | Hin].
  - injection Heq as -> ->. rewrite Nat.eqb_refl. cbn [map snd]. f_equal.
    clear IH Hnodup. induction entries as [|[k v] entries IH]; [reflexivity|].
    cbn [map List.filter fst].
    destruct (Nat.eqb k id) eqn:Hk.
    + apply Nat.eqb_eq in Hk. subst k. exfalso. apply Hfresh. cbn. left.
    + apply IH. intros Hin. apply Hfresh. cbn. right. exact Hin.
  - destruct (Nat.eqb k id) eqn:Hk.
    + apply Nat.eqb_eq in Hk. subst k. exfalso. apply Hfresh.
      apply list_elem_of_In. apply (in_map fst) in Hin. exact Hin.
    + apply IH; assumption.
Qed.

Lemma cancel_all_resolutions (s : Session) (id : nat) (inv : Invocation) :
  pending_calls s !! id = Some inv ->
  resolutions_of id (delivered (cancel_all s)) =
  resolutions_of id (delivered s) ++ [Cancelled].
Proof.
  intros Hpending. unfold cancel_all. cbn [delivered].
  rewrite resolutions_of_app. f_equal.
  apply (cancellations_once id inv).
  - apply NoDup_fst_map_to_list.
  - apply list_elem_of_In, elem_of_map_to_list. exact Hpending.
Qed.

End SessionFacts.

(** C8. Closing a Session that is not yet closed, while an Invocation is
    pending under some correlation id, delivers for that id exactly one new
    resolution, the cancellation; whatever happens afterwards (late
    responses under the same id, further closes, stream death), no other
    resolution is delivered for it, and the id is no longer pending. *)
Theorem close_cancels_pending_once :
  forall (s : Session.Session) (id : nat) (inv : Session.Invocation)
         (later : list Session.event),
    Session.state s <> Session.Closed ->
    Session.pending_calls s !! id = Some inv ->
    Session.resolutions_of id
      (Session.delivered (Session.run s (Session.Close :: later))) =
      Session.resolutions_of id (Session.delivered s) ++ [Session.Cancelled] /\
    Session.pending_calls (Session.run s (Session.Close :: later)) !! id = None /\
    Session.state (Session.run s (Session.Close :: later)) = Session.Closed.
Proof.
  intros s id inv later Hopen Hpending.
  unfold Session.run. cbn [fold_left]. fold (Session.run (Session.step s Session.Close) later).
  rewrite (step_close s Hopen), (run_closed later (Session.cancel_all s) eq_refl).
  split; [apply (cancel_all_resolutions s id inv Hpending)|].
  split; [apply lookup_empty | reflexivity].
Qed.

Lemma close_cancels_pending_once_witness :
  let pending :=
    Session.run Session.opened
      [ Session.HandshakeDone;
        Session.Send 1 (Session.mk_Invocation Session.CallTool "query_db"
                          [("sql", JStr "SELECT * FROM users")]);
        Session.Send 2 (Session.mk_Invocation Session.GetPrompt "sql_prompt" []);
        Session.Receive 2 (Session.Result "prompt") ] in
  Session.resolutions_of 1
    (Session.delivered
       (Session.run pending
          [Session.Close; Session.Receive 1 (Session.Result "(1,)"); Session.Close])) =
  [Session.Cancelled].
Proof.
  cbv zeta.
  refine (proj1 (close_cancels_pending_once _ 1
           (Session.mk_Invocation Session.CallTool "query_db"
              [("sql", JStr "SELECT * FROM users")])
           [Session.Receive 1 (Session.Result "(1,)"); Session.Close] _ _)).
  - vm_compute. discriminate.
  - vm_compute. reflexivity.
Defined.

(** * Further properties of the sources *)

(** ** Strings *)

Lemma contains_char_append (c : ascii) (a b : string) :
  contains_char c (a +:+ b) = contains_char c a || contains_char c b.
Proof.
  induction a as [|x a IH]; [reflexivity|].
  simpl. rewrite IH, orb_assoc. reflexivity.
Qed.

Lemma contains_char_join (c : ascii) (sep : string) (items : list string) :
  contains_char c sep = false ->
  Forall (fun s => contains_char c s = false) items ->
  contains_char c (join sep items) = false.
Proof.
  intros Hsep Hitems. unfold join.
  induction Hitems as [|x items Hx Hitems IH]; [reflexivity|].
  destruct items as [|y items]; [exact Hx|].
  change (String.concat sep (x :: y :: items))
    with (x +:+ sep +:+ String.concat sep (y :: items)).
  rewrite !contains_char_append, Hx, Hsep, IH. reflexivity.
Qed.

Lemma split_on_cons (c : ascii) (s : string) :
  exists x rest, split_on c s = x :: rest.
Proof.
  induction s as [|a s (x & rest & IH)]; [exists "", []; reflexivity|].
  simpl. destruct (Ascii.eqb a c); [eauto|]. rewrite IH. eauto.
Qed.

Lemma split_on_plain (c : ascii) (s : string) :
  contains_char c s = false -> split_on c s = [s].
Proof.
  induction s as [|a s IH]; intros H; [reflexivity|].
  simpl in *. apply orb_false_iff in H as [Ha Hs].
  rewrite Ha, (IH Hs). reflexivity.
Qed.

Lemma split_on_append (c : ascii) (a b : string) :
  contains_char c a = false ->
  split_on c (a +:+ String c b) = a :: split_on c b.
Proof.
  induction a as [|x a IH]; intros H.
  - simpl. rewrite Ascii.eqb_refl. reflexivity.
  - simpl in *. apply orb_false_iff in H as [Hx Ha].
    rewrite Hx, (IH Ha). reflexivity.
Qed.

(** Splitting undoes joining, for items free of the separator. *)
Lemma lines_join (items : list string) :
  items <> [] ->
  Forall (fun s => contains_char LF s = false) items ->
  lines (join nl items) = items.
Proof.
  intros Hne Hitems. unfold lines, join, nl.
  induction Hitems as [|x items Hx Hitems IH]; [congruence|].
  destruct items as [|y items]; [apply split_on_plain, Hx|].
  change (String.concat (String LF "") (x :: y :: items))
    with (x +:+ String LF (String.concat (String LF "") (y :: items))).
  rewrite (split_on_append LF x _ Hx), IH by discriminate. reflexivity.
Qed.

Lemma append_cancel_left (s a b : string) : s +:+ a = s +:+ b -> a = b.
Proof. induction s as [|c s IH]; simpl; intros H; [exact H|]. injection H as H. auto. Qed.

Lemma length_append (a b : string) :
  String.length (a +:+ b) = (String.length a + String.length b)%nat.
Proof. induction a as [|c a IH]; simpl; [reflexivity|]. rewrite IH. reflexivity. Qed.

Lemma append_cancel_right (t a b : string) : a +:+ t = b +:+ t -> a = b.
Proof.
  revert b. induction a as [|c a IH]; intros [|d b] H.
  - reflexivity.
  - apply (f_equal String.length) in H. rewrite !length_append in H.
    cbn [String.length] in H. lia.
  - apply (f_equal String.length) in H. rewrite !length_append in H.
    cbn [String.length] in H. lia.
  - change (String c (a +:+ t) = String d (b +:+ t)) in H.
    injection H as -> H. f_equal. apply IH, H.
Qed.

(** [repr] of a character never holds a raw line feed. *)
Lemma repr_char_single_line (a : ascii) :
  contains_char LF (repr_char squote a) = false /\
  contains_char LF (repr_char dquote a) = false.
Proof. destruct a as [[] [] [] [] [] [] [] []]; split; vm_compute; reflexivity. Qed.

Lemma repr_str_single_line (s : string) : contains_char LF (repr_str s) = false.
Proof.
  assert (Hbody : forall quote, quote = squote \/ quote = dquote ->
            contains_char LF (repr_body quote s) = false).
  { intros quote Hq. induction s as [|a s IH]; [reflexivity|].
    simpl. rewrite contains_char_append, IH, orb_false_r.
    destruct Hq as [-> | ->]; apply repr_char_single_line. }
  unfold repr_str.
  destruct (contains_char squote s && negb (contains_char dquote s));
    simpl; rewrite contains_char_append, Hbody by auto; reflexivity.
Qed.

Lemma pretty_N_go_single_line (x : N) (s : string) :
  contains_char LF s = false -> contains_char LF (pretty_N_go x s) = false.
Proof.
  revert s. induction (N.lt_wf_0 x) as [x _ IH]; intros s Hs.
  assert (x = 0 \/ 0 < x)%N as [-> | Hpos] by lia.
  - rewrite pretty_N_go_0. exact Hs.
  - rewrite pretty_N_go_step by exact Hpos. apply IH.
    + apply N.div_lt; [exact Hpos | reflexivity].
    + simpl. rewrite Hs, orb_false_r.
      unfold pretty_N_char. repeat case_match; reflexivity.
Qed.

Lemma pretty_Z_single_line (z : Z) : contains_char LF (pretty z) = false.
Proof.
  assert (HN : forall n : N, contains_char LF (pretty n) = false).
  { intros n. unfold pretty, pretty_N. case_decide; [reflexivity|].
    apply pretty_N_go_single_line. reflexivity. }
  destruct z as [|p|p]; [reflexivity | apply HN |].
  unfold pretty, pretty_Z. rewrite contains_char_append.
  change (contains_char LF (pretty (N.pos p)) = false). apply HN.
Qed.

(** ** More on the server handlers *)

Section ServerMore.
Import Sqlite Server Observe.

Variable engine : database -> string -> outcome (list row).

Lemma str_tuple_opens (r : row) : exists rest, str_tuple r = String "(" rest.
Proof. destruct r as [|v [|w r]]; eexists; reflexivity. Qed.

(** The rows of a successful query never read as an error. *)
Lemma rows_content_not_error (rows : list row) :
  String.prefix "Error: " (join nl (map str_tuple rows)) = false.
Proof.
  destruct rows as [|r rows]; [reflexivity|].
  destruct (str_tuple_opens r) as [rest Hr]. unfold join. cbn [map].
  destruct (map str_tuple rows) as [|x xs].
  - cbn [String.concat]. rewrite Hr. reflexivity.
  - change (String.concat nl (str_tuple r :: x :: xs))
      with (str_tuple r +:+ nl +:+ String.concat nl (x :: xs)).
    rewrite Hr. reflexivity.
Qed.

Lemma py_repr_single_line (v : value) :
  single_line v -> contains_char LF (py_repr v) = false.
Proof.
  destruct v as [|z|literal|text]; intros H; cbn [py_repr].
  - reflexivity.
  - apply pretty_Z_single_line.
  - exact H.
  - apply repr_str_single_line.
Qed.

Lemma str_tuple_single_line (r : row) :
  Forall single_line r -> contains_char LF (str_tuple r) = false.
Proof.
  intros H.
  assert (Hjoin : contains_char LF ("(" +:+ join ", " (map py_repr r) +:+ ")") = false).
  { rewrite !contains_char_append, contains_char_join; [reflexivity | reflexivity |].
    apply Forall_map. eapply Forall_impl; [exact H|]. apply py_repr_single_line. }
  destruct r as [|v [|w r]]; [exact Hjoin | | exact Hjoin].
  cbn [str_tuple]. rewrite !contains_char_append.
  apply Forall_inv in H. rewrite (py_repr_single_line v H). reflexivity.
Qed.

Lemma schema_tables_trace (conn : database) (tables : list row) :
  forall (acc : list string) (s : list store_event),
  exists added,
    snd (schema_tables engine conn tables acc s) = s ++ added /\
    Forall schema_event added.
Proof.
  induction tables as [|table tables IH]; intros acc s.
  - exists []. rewrite app_nil_r. split; [reflexivity | constructor].
  - cbn [schema_tables]. unfold bind at 1, lift at 1.
    destruct (index table 0) as [name|e].
    2:{ exists []. rewrite app_nil_r. split; [reflexivity | constructor]. }
    unfold bind at 1, execute_fetchall at 1.
    assert (Hev : schema_event (Executed (pragma_sql (py_str name)))).
    { eexists. split; [reflexivity|]. right. eexists. reflexivity. }
    destruct (engine conn (pragma_sql (py_str name))) as [columns|e].
    2:{ eexists. split; [reflexivity|]. constructor; [exact Hev | constructor]. }
    unfold bind at 1, lift at 1.
    destruct (schema_columns columns (acc ++ [table_header (py_str name)])) as [schema|e].
    2:{ eexists. split; [reflexivity|]. constructor; [exact Hev | constructor]. }
    destruct (IH schema (s ++ [Executed (pragma_sql (py_str name))])) as (added & Hs & Hall).
    exists (Executed (pragma_sql (py_str name)) :: added).
    rewrite Hs, <- app_assoc. split; [reflexivity|]. constructor; assumption.
Qed.

Lemma get_schema_steps (db : database) (s : list store_event) :
  get_schema (Returned db) engine s =
  match engine db master_sql with
  | Raised e => (Raised e, s ++ [Connected; Executed master_sql])
  | Returned tables =>
      match schema_tables engine db tables [] (s ++ [Connected; Executed master_sql]) with
      | (Returned schema, s') => (Returned schema, s' ++ [Closed])
      | (Raised e, s') => (Raised e, s')
      end
  end.
Proof.
  unfold get_schema, bind, sqlite3_connect, execute_fetchall, conn_close, modify, ret.
  rewrite <- app_assoc. cbn [app].
  destruct (engine db master_sql) as [tables|e]; [|reflexivity].
  destruct (schema_tables engine db tables [] (s ++ [Connected; Executed master_sql]))
    as [[schema|e] s']; reflexivity.
Qed.

(** The trace of a read of the schema on a store that opens. *)
Lemma get_schema_trace (db : database) (s : list store_event) :
  exists added,
    Forall schema_event added /\
    ((exists items,
        get_schema (Returned db) engine s =
        (Returned items, s ++ Connected :: added ++ [Closed]))
     \/
     (exists e,
        get_schema (Returned db) engine s = (Raised e, s ++ Connected :: added))).
Proof.
  assert (Hmaster : schema_event (Executed master_sql)).
  { eexists. split; [reflexivity|]. left. reflexivity. }
  rewrite get_schema_steps.
  destruct (engine db master_sql) as [tables|e].
  2:{ exists [Executed master_sql]. split; [constructor; [exact Hmaster | constructor]|].
      right. exists e. reflexivity. }
  destruct (schema_tables_trace db tables [] (s ++ [Connected; Executed master_sql]))
    as (added & Hs & Hall).
  exists (Executed master_sql :: added).
  split; [constructor; assumption|].
  destruct (schema_tables engine db tables [] (s ++ [Connected; Executed master_sql]))
    as [[schema|e] s'] eqn:Hrun; cbn [snd] in Hs; subst s'.
  - left. exists schema. f_equal. rewrite <- !app_assoc. reflexivity.
  - right. exists e. f_equal. rewrite <- !app_assoc. reflexivity.
Qed.

(** The loop over the tables stops at the first table whose
    [PRAGMA table_info] raises, with that exception. *)
Lemma schema_tables_until (conn : database) (before after : list table) (t : table)
    (e : exn) :
  (forall t', In t' before ->
     engine conn (pragma_sql (tbl_name t')) = Returned (table_info t')) ->
  engine conn (pragma_sql (tbl_name t)) = Raised e ->
  forall (acc : list string) (s : list store_event),
    schema_tables engine conn (master_table_names (before ++ t :: after)) acc s =
    (Raised e, s ++ map (fun t' => Executed (pragma_sql (tbl_name t'))) (before ++ [t])).
Proof.
  intros Hbefore Ht. induction before as [|b before IH]; intros acc s.
  - cbn [app master_table_names map schema_tables].
    unfold bind at 1, lift at 1. cbn [index nth_error].
    unfold bind at 1, execute_fetchall at 1. cbn [py_str]. rewrite Ht. reflexivity.
  - cbn [app master_table_names map schema_tables].
    unfold bind at 1, lift at 1. cbn [index nth_error].
    unfold bind at 1, execute_fetchall at 1. cbn [py_str].
    rewrite (Hbefore b (or_introl eq_refl)).
    unfold bind at 1, lift at 1, table_info. rewrite schema_columns_table_info.
    fold (master_table_names (before ++ t :: after)).
    rewrite IH by (intros t' Ht'; apply Hbefore; right; exact Ht').
    rewrite <- app_assoc. reflexivity.
Qed.

Lemma get_schema_until (db before after : list table) (t : table) (e : exn)
    (s : list store_event) :
  db = before ++ t :: after ->
  engine db master_sql = Returned (master_table_names db) ->
  (forall t', In t' before ->
     engine db (pragma_sql (tbl_name t')) = Returned (table_info t')) ->
  engine db (pragma_sql (tbl_name t)) = Raised e ->
  get_schema (Returned db) engine s =
  (Raised e,
   s ++ [Connected; Executed master_sql]
     ++ map (fun t' => Executed (pragma_sql (tbl_name t'))) (before ++ [t])).
Proof.
  intros Hdb Hmaster Hbefore Ht.
  rewrite get_schema_steps, Hmaster.
  rewrite Hdb at 2. rewrite (schema_tables_until db before after t e Hbefore Ht).
  rewrite <- app_assoc. reflexivity.
Qed.

End ServerMore.

(** X1. On a store that opens, [query_db] never raises: it executes the
    given text as its one statement, closes the connection, and returns a
    string that begins with ["Error: "] exactly when the execution raised.
    Rows never read as an error. *)
Theorem query_db_marks_errors :
  forall (engine : Sqlite.database -> string -> outcome (list Sqlite.row))
         (db : Sqlite.database) (sql : string) (s : list Server.store_event),
  exists text : string,
    Server.query_db (Returned db) engine sql s =
      (Returned text, s ++ [Server.Connected; Server.Executed sql; Server.Closed]) /\
    (String.prefix "Error: " text = true <-> exists e, engine db sql = Raised e).
Proof.
  intros engine db sql s. rewrite query_db_connected.
  destruct (engine db sql) as [rows|e]; eexists; (split; [reflexivity|]).
  - rewrite rows_content_not_error. split; [discriminate | intros [e H]; discriminate].
  - split; [eauto | intros _; apply prefix_append].
Qed.

(** X2. When the store cannot be opened, [query_db] does not return an
    error string. Run statement by statement with its local names: the
    connect raises before [conn] is bound, the handler builds its message
    and returns it, and the [finally] clause then reads [conn]; that read
    raises [UnboundLocalError], which replaces the returned message.
    Nothing was opened and nothing is closed. The run with local names and
    [Server.query_db] agree on every input. *)
Theorem query_db_store_unavailable :
  forall (engine : Sqlite.database -> string -> outcome (list Sqlite.row))
         (failure : exn) (sql : string) (s : list Server.store_event),
    (exists e : exn,
       Frame.query_db (Raised failure) engine sql s = (Raised e, s) /\
       exn_cls e = UnboundLocalError) /\
    (try_except
       (opened <- Frame.world (Server.sqlite3_connect (Raised failure)) ;;
        Frame.assign opened ;;;
        conn <- Frame.read "conn" ;;
        result <- Frame.world (Server.execute_fetchall engine conn sql) ;;
        ret (join nl (map Server.str_tuple result)))
       (fun e => ret ("Error: " +:+ exn_str e)))
      (None, s) = (Returned ("Error: " +:+ exn_str failure), (None, s)) /\
    (forall connect_reply : outcome Sqlite.database,
       Frame.query_db connect_reply engine sql s =
       Server.query_db connect_reply engine sql s).
Proof.
  intros engine failure sql s. split; [|split].
  - eexists. split; reflexivity.
  - reflexivity.
  - intros [db|e]; [|reflexivity].
    unfold Frame.query_db, Server.query_db, Frame.with_locals, try_finally, try_except,
      bind, Frame.world, Frame.assign, Frame.read, Server.sqlite3_connect,
      Server.execute_fetchall, Server.conn_close, modify, ret.
    cbn. destruct (engine db sql); reflexivity.
Qed.

(** X3. When the query succeeds with at least one row whose text values
    lie within ASCII, the content has exactly one line per row, the rows in
    the order fetched, whatever control characters the text holds: [repr]
    writes a line feed inside a value as a backslash and the letter n. *)
Theorem query_db_one_line_per_row :
  forall (engine : Sqlite.database -> string -> outcome (list Sqlite.row))
         (db : Sqlite.database) (sql : string) (rows : list Sqlite.row)
         (s : list Server.store_event),
    engine db sql = Returned rows ->
    rows <> [] ->
    Forall (Forall Observe.plain_value) rows ->
    exists text : string,
      fst (Server.query_db (Returned db) engine sql s) = Returned text /\
      lines text = map Server.str_tuple rows /\
      length (lines text) = length rows.
Proof.
  intros engine db sql rows s Hrows Hne Hvalues.
  rewrite query_db_connected, Hrows. eexists. split; [reflexivity|].
  assert (Hlines : lines (join nl (map Server.str_tuple rows)) = map Server.str_tuple rows).
  { apply lines_join.
    - destruct rows; [congruence | discriminate].
    - apply Forall_map. eapply Forall_impl; [exact Hvalues|].
      intros r Hr. apply str_tuple_single_line.
      eapply Forall_impl; [exact Hr|]. intros [|z|literal|text] Hv; exact I || exact Hv. }
  split; [exact Hlines|]. rewrite Hlines. apply length_map.
Qed.

Lemma query_db_one_line_per_row_witness :
  exists text : string,
    fst (Server.query_db (Returned Sqlite.fixture_store)
           (fun _ _ => Returned [ [Sqlite.VInt 1; Sqlite.VText ("two" +:+ nl +:+ "lines")];
                                  [Sqlite.VInt 2; Sqlite.VNull] ])
           "SELECT id, note FROM notes" []) = Returned text /\
    lines text = [ "(1, 'two" +:+ String backslash "nlines')"; "(2, None)" ].
Proof.
  destruct (query_db_one_line_per_row
              (fun _ _ => Returned [ [Sqlite.VInt 1; Sqlite.VText ("two" +:+ nl +:+ "lines")];
                                     [Sqlite.VInt 2; Sqlite.VNull] ])
              Sqlite.fixture_store "SELECT id, note FROM notes"
              [ [Sqlite.VInt 1; Sqlite.VText ("two" +:+ nl +:+ "lines")];
                [Sqlite.VInt 2; Sqlite.VNull] ] [])
    as (text & Hrun & Hlines & _).
  - reflexivity.
  - discriminate.
  - repeat constructor.
  - exists text. split; [exact Hrun | exact Hlines].
Defined.

(** X4. A read of the schema only reads: on any engine and any catalog, the
    statements it issues are the catalog query and [PRAGMA table_info]
    statements, nothing else. *)
Theorem get_schema_only_reads :
  forall (engine : Sqlite.database -> string -> outcome (list Sqlite.row))
         (db : Sqlite.database) (s : list Server.store_event),
  exists added : list Server.store_event,
    snd (Server.get_schema (Returned db) engine s) = s ++ added /\
    Forall (fun ev => ev = Server.Connected \/ ev = Server.Closed \/
                      exists sql, ev = Server.Executed sql /\ Observe.schema_statement sql)
           added.
Proof.
  intros engine db s.
  destruct (get_schema_trace engine db s) as (added & Hall & [[items Hrun] | [e Hrun]]);
    rewrite Hrun; cbn [snd]; eexists; (split; [reflexivity|]).
  - constructor; [auto|]. apply Forall_app. split.
    + eapply Forall_impl; [exact Hall|]. intros ev Hev. right. right. exact Hev.
    + constructor; [auto | constructor].
  - constructor; [auto|].
    eapply Forall_impl; [exact Hall|]. intros ev Hev. right. right. exact Hev.
Qed.

(** X5. [get_schema] has no [try]: what the store raises comes out as it is
    (never as an item or an ["Error: "] string), be it the failure to open
    the store, the catalog query, or [PRAGMA table_info] for any table of
    the catalog, the tables before it having been read. The connection is
    closed exactly when the read returns: a read that raises after opening
    the store leaves the connection open. *)
Theorem get_schema_closes_iff_returns :
  forall (engine : Sqlite.database -> string -> outcome (list Sqlite.row))
         (db : Sqlite.database) (s : list Server.store_event),
    (exists added : list Server.store_event,
       snd (Server.get_schema (Returned db) engine s) = s ++ added /\
       (In Server.Closed added <->
        exists items, fst (Server.get_schema (Returned db) engine s) = Returned items)) /\
    (forall e,
       engine db "SELECT name FROM sqlite_master WHERE type='table';" = Raised e ->
       Server.get_schema (Returned db) engine s =
       (Raised e,
        s ++ [Server.Connected;
              Server.Executed "SELECT name FROM sqlite_master WHERE type='table';"])) /\
    (forall (before after : list Sqlite.table) (t : Sqlite.table) (e : exn),
       db = before ++ t :: after ->
       engine db "SELECT name FROM sqlite_master WHERE type='table';" =
         Returned (Sqlite.master_table_names db) ->
       (forall t', In t' before ->
          engine db ("PRAGMA table_info(" +:+ Sqlite.tbl_name t' +:+ ")") =
            Returned (Sqlite.table_info t')) ->
       engine db ("PRAGMA table_info(" +:+ Sqlite.tbl_name t +:+ ")") = Raised e ->
       Server.get_schema (Returned db) engine s =
       (Raised e,
        s ++ [Server.Connected;
              Server.Executed "SELECT name FROM sqlite_master WHERE type='table';"]
          ++ map (fun t' => Server.Executed
                              ("PRAGMA table_info(" +:+ Sqlite.tbl_name t' +:+ ")"))
                 (before ++ [t]))) /\
    (forall failure, Server.get_schema (Raised failure) engine s = (Raised failure, s)).
Proof.
  intros engine db s. split; [|split; [|split]].
  - assert (Hnot : forall added, Forall Observe.schema_event added ->
                     ~ In Server.Closed added).
    { intros added Hall Hin. rewrite Forall_forall in Hall.
      apply list_elem_of_In, Hall in Hin. destruct Hin as (sql & Heq & _). discriminate. }
    destruct (get_schema_trace engine db s) as (added & Hall & [[items Hrun] | [e Hrun]]);
      rewrite Hrun; cbn [fst snd]; eexists; (split; [reflexivity|]).
    + split; [eauto|]. intros _. right. apply in_or_app. right. left. reflexivity.
    + split; [|intros [items H]; discriminate].
      intros [H | H]; [discriminate | destruct (Hnot added Hall H)].
  - intros e He. change (engine db Server.master_sql = Raised e) in He.
    rewrite get_schema_steps, He. reflexivity.
  - intros before after t e Hdb Hmaster Hbefore Ht.
    exact (get_schema_until engine db before after t e s Hdb Hmaster Hbefore Ht).
  - intros failure. reflexivity.
Qed.

Lemma get_schema_closes_iff_returns_witness :
  Server.get_schema (Returned Scenario.spaced_store) Scenario.refusing_engine [] =
  (Raised (mk_exn OperationalError ("near " +:+ Scenario.quoted "table" +:+ ": syntax error")),
   [ Server.Connected;
     Server.Executed "SELECT name FROM sqlite_master WHERE type='table';";
     Server.Executed "PRAGMA table_info(users)";
     Server.Executed "PRAGMA table_info(orders)";
     Server.Executed "PRAGMA table_info(my table)" ]).
Proof.
  apply (proj1 (proj2 (proj2 (get_schema_closes_iff_returns Scenario.refusing_engine
           Scenario.spaced_store [])))
           Sqlite.fixture_store []
           (Sqlite.mk_table "my table" [Sqlite.mk_column "id" "INTEGER" false false] [])).
  - reflexivity.
  - reflexivity.
  - intros t' [<- | [<- | []]]; reflexivity.
  - reflexivity.
Defined.

(** C4, as the code has it on a catalog with a table whose name has to be
    quoted. The store holds [users], [orders] and a table named
    [my table]; the engine lists the three and describes the first two.
    [get_schema] writes the third name unquoted into
    [PRAGMA table_info(my table)]; the engine rejects that statement, and
    the read raises the engine's error: it produces no header and no column
    line for any table, and leaves the connection open. *)
Theorem get_schema_fails_on_spaced_name :
  forall (engine : Sqlite.database -> string -> outcome (list Sqlite.row)) (e : exn)
         (s : list Server.store_event),
    engine Scenario.spaced_store "SELECT name FROM sqlite_master WHERE type='table';" =
      Returned [ [Sqlite.VText "users"]; [Sqlite.VText "orders"];
                 [Sqlite.VText "my table"] ] ->
    engine Scenario.spaced_store "PRAGMA table_info(users)" =
      Returned (Sqlite.table_info_from 0 Sqlite.users_columns) ->
    engine Scenario.spaced_store "PRAGMA table_info(orders)" =
      Returned (Sqlite.table_info_from 0 Sqlite.orders_columns) ->
    engine Scenario.spaced_store "PRAGMA table_info(my table)" = Raised e ->
    Server.get_schema (Returned Scenario.spaced_store) engine s =
    (Raised e,
     s ++ [ Server.Connected;
            Server.Executed "SELECT name FROM sqlite_master WHERE type='table';";
            Server.Executed "PRAGMA table_info(users)";
            Server.Executed "PRAGMA table_info(orders)";
            Server.Executed "PRAGMA table_info(my table)" ]).
Proof.
  intros engine e s Hmaster Husers Horders Hspaced.
  apply (get_schema_until engine Scenario.spaced_store Sqlite.fixture_store []
           (Sqlite.mk_table "my table" [Sqlite.mk_column "id" "INTEGER" false false] [])
           e s).
  - reflexivity.
  - exact Hmaster.
  - intros t' [<- | [<- | []]]; assumption.
  - exact Hspaced.
Qed.

Lemma get_schema_fails_on_spaced_name_witness :
  fst (Server.get_schema (Returned Scenario.spaced_store) Scenario.refusing_engine []) =
  Raised (mk_exn OperationalError ("near " +:+ Scenario.quoted "table" +:+ ": syntax error")).
Proof.
  rewrite (get_schema_fails_on_spaced_name Scenario.refusing_engine
             (mk_exn OperationalError
                ("near " +:+ Scenario.quoted "table" +:+ ": syntax error")) []);
    reflexivity.
Defined.

(** X6. The rendered prompt determines the question: two questions with the
    same rendering are the same question. *)
Theorem sql_prompt_injective :
  forall X Y : string, Server.sql_prompt X = Server.sql_prompt Y -> X = Y.
Proof.
  intros X Y H. unfold Server.sql_prompt in H.
  apply append_cancel_left in H. apply append_cancel_right in H. exact H.
Qed.

Lemma sql_prompt_injective_witness :
  "a" = "a".
Proof.
  exact (sql_prompt_injective "a" "a" eq_refl).
Defined.

(** ** More on the store *)

Section StoreMore.
Import Sqlite Observe.

















Lemma find_table_app (m : string) (db extra : database) (t : table) :
  find_table m db = Some t -> find_table m (db ++ extra) = Some t.
Proof.
  unfold find_table. induction db as [|t' db IH]; [discriminate|].
  cbn [List.find app]. destruct (String.eqb (tbl_name t') m); auto.
Qed.

(** [CREATE TABLE IF NOT EXISTS] leaves a catalog that has the table and
    finds every table it found before. *)
Lemma create_table_found (n : string) (cols : list column) (db : database) :
  exists db1 t1,
    create_table_if_not_exists n cols db = Returned db1 /\
    find_table n db1 = Some t1 /\
    (forall t0, find_table n db = Some t0 -> db1 = db) /\
    (forall m t, find_table m db = Some t -> find_table m db1 = Some t).
Proof.
  unfold create_table_if_not_exists.
  destruct (find_table n db) as [t0|] eqn:Hfind.
  - exists db, t0. auto.
  - exists (db ++ [mk_table n cols []]), (mk_table n cols []).
    split; [reflexivity|]. split; [|split; [discriminate|]].
    + clear -Hfind. unfold find_table in *. induction db as [|t' db IH].
      * cbn. rewrite String.eqb_refl. reflexivity.
      * cbn [List.find app] in *. destruct (String.eqb (tbl_name t') n); [discriminate|auto].
    + intros m t. apply find_table_app.
Qed.


End StoreMore.

Section CreateDatabase.
Import Sqlite Observe.







End CreateDatabase.





(** X9. [CREATE TABLE IF NOT EXISTS] does not repair a table that is already
    there: when the database has a table [users] that does not have four
    columns, the script raises [OperationalError] at its first insert. *)
Theorem create_database_rejects_other_layout :
  forall (db : Sqlite.database) (t : Sqlite.table),
    Sqlite.find_table "users" db = Some t ->
    length (Sqlite.tbl_columns t) <> 4%nat ->
    exists e : exn,
      Sqlite.create_database db = Raised e /\
      exn_cls e = OperationalError /\
      exn_str e = "table users has " +:+ pretty (length (Sqlite.tbl_columns t))
                  +:+ " columns but 4 values were supplied".
Proof.
  intros db t Hfind Hlen.
  destruct (create_table_found "orders" Sqlite.orders_columns db)
    as (db2 & to2 & Hc2 & _ & _ & Hkeep2).
  unfold Sqlite.create_database, Sqlite.create_table_if_not_exists at 1.
  rewrite Hfind. cbn [obind]. rewrite Hc2. cbn [obind].
  unfold Sqlite.users. cbn [Sqlite.executemany_insert_or_replace].
  unfold Sqlite.insert_or_replace at 1. rewrite (Hkeep2 _ _ Hfind).
  cbn [length].
  destruct (Nat.eqb_spec 4 (length (Sqlite.tbl_columns t))) as [Heq|_]; [congruence|].
  cbn [negb obind]. eexists. split; [reflexivity|]. split; reflexivity.
Qed.

Lemma create_database_rejects_other_layout_witness :
  exists e : exn,
    Sqlite.create_database
      [Sqlite.mk_table "users" [Sqlite.mk_column "id" "INTEGER" false true] []] = Raised e /\
    exn_str e = "table users has 1 columns but 4 values were supplied".
Proof.
  destruct (create_database_rejects_other_layout
              [Sqlite.mk_table "users" [Sqlite.mk_column "id" "INTEGER" false true] []]
              (Sqlite.mk_table "users" [Sqlite.mk_column "id" "INTEGER" false true] []))
    as (e & Hrun & _ & Hmsg).
  - reflexivity.
  - cbn. discriminate.
  - exists e. split; [exact Hrun | exact Hmsg].
Defined.

(** ** More on the client *)

Section ClientMore.
Import Client Host.

Variable peer : Peer.
Variable model_dump_json : Content -> string.

Lemma list_tools_connected (c : MCP_Client) (s : ClientSession) :
  session c = Some s ->
  list_tools peer c =
  (match list_tools_reply peer with
   | Returned tools => Returned (map (tool_def (url c)) tools)
   | Raised e => Raised e
   end,
   mk_MCP_Client (url c) (session c) (exit_stack c) (sent c ++ [ListTools])).
Proof.
  intros H. unfold list_tools, bind at 1. rewrite (require_session_some c s H).
  unfold bind, send, modify, lift, get, ret. cbn.
  destruct (list_tools_reply peer); reflexivity.
Qed.

Lemma get_prompt_connected (c : MCP_Client) (s : ClientSession) (name : string)
    (kwargs : list (string * json)) :
  session c = Some s ->
  get_prompt peer name kwargs c =
  (get_prompt_reply peer name kwargs,
   mk_MCP_Client (url c) (session c) (exit_stack c) (sent c ++ [GetPrompt name kwargs])).
Proof.
  intros H. unfold get_prompt, bind at 1. rewrite (require_session_some c s H).
  unfold bind, send, modify, lift. cbn.
  destruct (get_prompt_reply peer name kwargs); reflexivity.
Qed.

Lemma anext_connected (c : MCP_Client) (s : ClientSession) (uri : string) :
  session c = Some s ->
  anext peer (get_resource uri) c =
  (match read_resource_reply peer uri with
   | Returned items => Returned (yield_from items)
   | Raised e => Raised e
   end,
   mk_MCP_Client (url c) (session c) (exit_stack c) (sent c ++ [ReadResource uri])).
Proof.
  intros H. unfold get_resource, anext, bind at 1. rewrite (require_session_some c s H).
  unfold bind, send, modify, lift, ret. cbn.
  destruct (read_resource_reply peer uri); reflexivity.
Qed.

Lemma log_schema_journal (items : list json) (h : host) :
  log_schema items h =
  (Returned tt, mk_host (client h) (journal h ++ map SchemaLogged items)).
Proof.
  revert h. induction items as [|item items IH]; intros h.
  - cbn. unfold ret. rewrite app_nil_r. destruct h; reflexivity.
  - cbn [log_schema map]. unfold bind, log, modify. rewrite IH. cbn.
    rewrite <- app_assoc. reflexivity.
Qed.

Lemma tool_parameters_names (required_params : list string)
    (ps : list (string * param_schema)) :
  map name (map (tool_parameter required_params) ps) = map fst ps.
Proof. induction ps as [|p ps IH]; [reflexivity|]. cbn. rewrite IH. reflexivity. Qed.

Lemma tool_parameters_required (required_params : list string)
    (ps : list (string * param_schema)) :
  map name (List.filter required (map (tool_parameter required_params) ps)) =
  List.filter (fun n => existsb (String.eqb n) required_params) (map fst ps).
Proof.
  induction ps as [|p ps IH]; [reflexivity|]. cbn [map List.filter].
  cbn [tool_parameter required name].
  destruct (existsb (String.eqb (fst p)) required_params); cbn [map]; rewrite IH; reflexivity.
Qed.

End ClientMore.

(** X10. What the reasoning collaborator is told of a tool, through
    [list_tools] and the host's conversion: the tool's name and description;
    one property per entry of the schema's [properties], in that order, typed
    ["string"] where the schema gives no type; and as required exactly the
    property names that the schema lists as required. A required name with
    no property is dropped, and a schema without [properties] yields none. *)
Theorem tool_schema_reaches_llm :
  forall (endpoint : string) (tool : Client.Tool),
    let shown := Host.openai_tool_of (Client.tool_def endpoint tool) in
    let props := get_or [] (Client.properties (Client.inputSchema tool)) in
    let wanted := get_or [] (Client.required_names (Client.inputSchema tool)) in
    Host.fn_name shown = Client.tool_name tool /\
    Host.fn_description shown = Client.tool_description tool /\
    Host.fn_properties shown =
      map (fun p => (fst p, (get_or "string" (Client.ps_type (snd p)),
                             get_or "" (Client.ps_description (snd p))))) props /\
    Host.fn_required shown =
      List.filter (fun n => existsb (String.eqb n) wanted) (map fst props) /\
    Forall (fun n => In n (map fst (Host.fn_properties shown))) (Host.fn_required shown).
Proof.
  intros endpoint tool. cbv zeta.
  unfold Host.openai_tool_of, Client.tool_def.
  cbn [Host.fn_name Host.fn_description Host.fn_properties Host.fn_required
       Client.td_name Client.td_description Client.parameters].
  split; [reflexivity|]. split; [reflexivity|].
  assert (Hprops :
    map (fun param => (Client.name param,
                       (Client.parameter_type param, Client.description param)))
        (map (Client.tool_parameter
                (get_or [] (Client.required_names (Client.inputSchema tool))))
             (get_or [] (Client.properties (Client.inputSchema tool)))) =
    map (fun p => (fst p, (get_or "string" (Client.ps_type (snd p)),
                           get_or "" (Client.ps_description (snd p)))))
        (get_or [] (Client.properties (Client.inputSchema tool)))).
  { rewrite map_map. reflexivity. }
  split; [exact Hprops|].
  rewrite tool_parameters_required. split; [reflexivity|].
  rewrite Hprops, map_map. cbn [fst].
  apply List.Forall_forall. intros n Hn. apply filter_In in Hn as [Hn _]. exact Hn.
Qed.

(** X11. On a connected client, an error of the session in [list_tools],
    [call_tool] or [get_prompt] comes out as it is (it is not turned into a
    [ConnectionError]), the request has been sent, and the client stays
    connected: the session and the exit stack are untouched. *)
Theorem session_errors_pass_through :
  forall (peer : Client.Peer) (dump : Client.Content -> string) (c : Client.MCP_Client)
         (s : Client.ClientSession) (e : exn) (name : string)
         (arguments : option (list (string * json))) (kwargs : list (string * json)),
    Client.session c = Some s ->
    (Client.list_tools_reply peer = Raised e ->
       Client.list_tools peer c =
       (Raised e, Client.mk_MCP_Client (Client.url c) (Some s) (Client.exit_stack c)
                    (Client.sent c ++ [Client.ListTools]))) /\
    (Client.call_tool_reply peer name (get_or [] arguments) = Raised e ->
       Client.call_tool peer dump name arguments c =
       (Raised e, Client.mk_MCP_Client (Client.url c) (Some s) (Client.exit_stack c)
                    (Client.sent c ++ [Client.CallTool name (get_or [] arguments)]))) /\
    (Client.get_prompt_reply peer name kwargs = Raised e ->
       Client.get_prompt peer name kwargs c =
       (Raised e, Client.mk_MCP_Client (Client.url c) (Some s) (Client.exit_stack c)
                    (Client.sent c ++ [Client.GetPrompt name kwargs]))).
Proof.
  intros peer dump c s e name arguments kwargs H.
  rewrite (list_tools_connected peer c s H), (call_tool_connected peer dump c s _ _ H),
    (get_prompt_connected peer c s _ _ H), H.
  repeat split; intros ->; reflexivity.
Qed.

Lemma session_errors_pass_through_witness :
  Client.call_tool
    (Client.mk_Peer (fun _ => Returned tt) (Returned tt) (Returned tt) (Returned [])
       (fun _ _ => Raised (mk_exn McpError "Unknown tool: drop_db"))
       (fun _ _ => Raised (mk_exn McpError "Unknown prompt"))
       (fun _ => Returned []))
    Scenario.dump "drop_db" None
    (Client.mk_MCP_Client "u" (Some (Client.mk_ClientSession "u"))
       [Client.SessionContext; Client.StreamsContext] []) =
  (Raised (mk_exn McpError "Unknown tool: drop_db"),
   Client.mk_MCP_Client "u" (Some (Client.mk_ClientSession "u"))
     [Client.SessionContext; Client.StreamsContext] [Client.CallTool "drop_db" []]).
Proof.
  apply (proj1 (proj2 (session_errors_pass_through _ Scenario.dump
           (Client.mk_MCP_Client "u" (Some (Client.mk_ClientSession "u"))
              [Client.SessionContext; Client.StreamsContext] [])
           (Client.mk_ClientSession "u") (mk_exn McpError "Unknown tool: drop_db")
           "drop_db" None [] eq_refl))).
  reflexivity.
Defined.

(** X12. Reading the schema at start-up sends one read request and logs
    every item of the response, in order; an empty response logs nothing. *)
Theorem read_schema_logs_every_item :
  forall (peer : Client.Peer) (h : Host.host) (s : Client.ClientSession)
         (items : list json),
    Client.session (Host.client h) = Some s ->
    Client.read_resource_reply peer "db://schema" = Returned items ->
    Host.read_schema peer h =
    (Returned tt,
     Host.mk_host
       (Client.mk_MCP_Client (Client.url (Host.client h)) (Some s)
          (Client.exit_stack (Host.client h))
          (Client.sent (Host.client h) ++ [Client.ReadResource "db://schema"]))
       (Host.journal h ++ map Host.SchemaLogged items)).
Proof.
  intros peer h s items Hs Hitems.
  unfold Host.read_schema, bind at 1, Host.on_client.
  rewrite (anext_connected peer (Host.client h) s "db://schema" Hs), Hitems, Hs.
  destruct items as [|item items]; cbn [Client.yield_from].
  - unfold ret. cbn. rewrite app_nil_r. reflexivity.
  - unfold bind, Host.log, modify. rewrite log_schema_journal. cbn.
    rewrite <- app_assoc. reflexivity.
Qed.

Lemma read_schema_logs_every_item_witness :
  Host.journal
    (snd (Host.read_schema Scenario.live_peer
            (Host.mk_host
               (snd (Client.connect Scenario.live_peer (Client.init "127.0.0.1" 8100)))
               []))) =
  [Host.SchemaLogged (JStr "表 users:"); Host.SchemaLogged (JStr "  - id (INTEGER)")].
Proof.
  rewrite (read_schema_logs_every_item Scenario.live_peer _
             (Client.mk_ClientSession "http://127.0.0.1:8100/sse")
             [JStr "表 users:"; JStr "  - id (INTEGER)"]).
  - reflexivity.
  - reflexivity.
  - reflexivity.
Defined.

(** ** More on the host *)

Section Preservation.
Import Observe.

Context {S : Type} (P : S -> Prop).

Lemma preserves_ret {A} (a : A) : preserves P (ret a).
Proof. intros s H. exact H. Qed.

Lemma preserves_raise {A} (e : exn) : preserves P (@raise S A e).
Proof. intros s H. exact H. Qed.

Lemma preserves_lift {A} (o : outcome A) : preserves P (@lift S A o).
Proof. intros s H. exact H. Qed.

Lemma preserves_get : preserves P (@get S).
Proof. intros s H. exact H. Qed.

Lemma preserves_modify (f : S -> S) :
  (forall s, P s -> P (f s)) -> preserves P (modify f).
Proof. intros Hf s H. apply Hf, H. Qed.

Lemma preserves_bind {A B} (m : M S A) (k : A -> M S B) :
  preserves P m -> (forall a, preserves P (k a)) -> preserves P (bind m k).
Proof.
  intros Hm Hk s H. unfold bind. specialize (Hm s H).
  destruct (m s) as [[a|e] s']; cbn [snd] in *; [apply Hk, Hm | exact Hm].
Qed.

Lemma preserves_try_except {A} (body : M S A) (handler : exn -> M S A) :
  preserves P body -> (forall e, preserves P (handler e)) ->
  preserves P (try_except body handler).
Proof.
  intros Hb Hh s H. unfold try_except. specialize (Hb s H).
  destruct (body s) as [[a|e] s']; cbn [snd] in *; [exact Hb | apply Hh, Hb].
Qed.

Lemma preserves_try_finally {A} (body : M S A) (cleanup : M S unit) :
  preserves P body -> preserves P cleanup -> preserves P (try_finally body cleanup).
Proof.
  intros Hb Hc s H. unfold try_finally. specialize (Hb s H).
  destruct (body s) as [r s']. cbn [snd] in Hb. specialize (Hc s' Hb).
  destruct (cleanup s') as [[[]|e] s'']; exact Hc.
Qed.

End Preservation.

Section WireInvariant.
Import Client Host Observe.

Variable peer : Peer.
Variable model_dump_json : Content -> string.
Variable llm : Collaborators.

Lemma send_keeps (m : message) :
  query_db_only m -> preserves calls_query_db_only (send m).
Proof.
  intros Hm. apply preserves_modify. intros c Hc. unfold calls_query_db_only in *.
  cbn [sent]. apply Forall_app. split; [exact Hc | constructor; [exact Hm | constructor]].
Qed.

Lemma set_session_keeps (v : option ClientSession) :
  preserves calls_query_db_only (set_session v).
Proof. apply preserves_modify. intros c Hc. exact Hc. Qed.

Lemma enter_keeps (ctx : context) (reply : outcome unit) :
  preserves calls_query_db_only (enter_async_context ctx reply).
Proof.
  apply preserves_bind; [apply preserves_lift|]. intros _.
  apply preserves_modify. intros c Hc. exact Hc.
Qed.

Lemma disconnect_keeps : preserves calls_query_db_only disconnect.
Proof.
  apply preserves_bind; [|intros _; apply set_session_keeps].
  apply preserves_modify. intros c Hc. unfold calls_query_db_only in *. cbn [sent].
  apply Forall_app. split; [exact Hc|]. apply Forall_map, Forall_true. intros ctx. exact I.
Qed.

Lemma require_session_keeps : preserves calls_query_db_only require_session.
Proof.
  apply preserves_bind; [apply preserves_get|]. intros c.
  destruct (session c); [apply preserves_ret | apply preserves_raise].
Qed.

Lemma connect_keeps : preserves calls_query_db_only (connect peer).
Proof.
  apply preserves_try_except.
  - apply preserves_bind; [apply preserves_get|]. intros c.
    apply preserves_bind; [apply send_keeps; exact I|]. intros _.
    apply preserves_bind; [apply enter_keeps|]. intros _.
    apply preserves_bind; [apply enter_keeps|]. intros _.
    apply preserves_bind; [apply set_session_keeps|]. intros _.
    apply preserves_bind; [apply send_keeps; exact I|]. intros _.
    apply preserves_bind; [apply preserves_lift|]. intros _.
    apply preserves_bind; [apply send_keeps; exact I|]. intros _.
    apply preserves_bind; [apply preserves_lift|]. intros _. apply preserves_ret.
  - intros e. apply preserves_bind; [apply disconnect_keeps|]. intros _.
    apply preserves_raise.
Qed.

Lemma list_tools_keeps : preserves calls_query_db_only (list_tools peer).
Proof.
  apply preserves_bind; [apply require_session_keeps|]. intros _.
  apply preserves_bind; [apply send_keeps; exact I|]. intros _.
  apply preserves_bind; [apply preserves_lift|]. intros tools.
  apply preserves_bind; [apply preserves_get|]. intros c. apply preserves_ret.
Qed.

Lemma get_prompt_keeps (name : string) (kwargs : list (string * json)) :
  preserves calls_query_db_only (get_prompt peer name kwargs).
Proof.
  apply preserves_bind; [apply require_session_keeps|]. intros _.
  apply preserves_bind; [apply send_keeps; exact I|]. intros _. apply preserves_lift.
Qed.

Lemma call_query_db_keeps (v : json) :
  preserves calls_query_db_only
    (call_tool peer model_dump_json "query_db" (Some [("sql", v)])).
Proof.
  apply preserves_bind; [apply require_session_keeps|]. intros _.
  apply preserves_bind; [apply send_keeps; split; eauto|]. intros _.
  apply preserves_bind; [apply preserves_lift|]. intros result. apply preserves_ret.
Qed.

Lemma anext_keeps (g : resource_generator) :
  preserves calls_query_db_only (anext peer g).
Proof.
  destruct g as [uri|remaining|]; cbn [anext]; try apply preserves_ret.
  apply preserves_bind; [apply require_session_keeps|]. intros _.
  apply preserves_bind; [apply send_keeps; exact I|]. intros _.
  apply preserves_bind; [apply preserves_lift|]. intros response. apply preserves_ret.
Qed.

Lemma on_client_keeps {A} (m : M MCP_Client A) :
  preserves calls_query_db_only m ->
  preserves host_calls_query_db_only (on_client m).
Proof.
  intros Hm h H. unfold on_client. specialize (Hm (client h) H).
  destruct (m (client h)) as [r c']. exact Hm.
Qed.

Lemma log_keeps (e : host_event) : preserves host_calls_query_db_only (log e).
Proof. apply preserves_modify. intros h H. exact H. Qed.

Lemma log_schema_keeps (items : list json) :
  preserves host_calls_query_db_only (log_schema items).
Proof.
  induction items as [|item items IH]; [apply preserves_ret|].
  apply preserves_bind; [apply log_keeps | intros _; exact IH].
Qed.

Lemma iteration_keeps (tools : list ToolDef) (q : string) :
  preserves host_calls_query_db_only (iteration peer model_dump_json llm tools q).
Proof.
  apply preserves_bind; [apply on_client_keeps, get_prompt_keeps|]. intros prompt.
  apply preserves_bind; [apply preserves_lift|]. intros first_message.
  apply preserves_bind; [apply preserves_lift|]. intros prompt_text.
  apply preserves_bind; [apply log_keeps|]. intros _.
  apply preserves_bind; [apply preserves_lift|]. intros response.
  apply preserves_bind; [apply preserves_lift|]. intros choice.
  apply preserves_bind; [apply preserves_lift|]. intros call.
  apply preserves_bind; [apply preserves_lift|]. intros sql_args.
  apply preserves_bind; [apply preserves_lift|]. intros sql_query.
  apply preserves_bind; [apply on_client_keeps, call_query_db_keeps|]. intros result.
  apply preserves_bind; [apply log_keeps|]. intros _.
  apply preserves_bind; [apply preserves_lift|]. intros explanation.
  apply preserves_bind; [apply preserves_lift|]. intros answer.
  apply log_keeps.
Qed.

Lemma main_loop_keeps (tools : list ToolDef) (inputs : list string) :
  preserves host_calls_query_db_only (main_loop peer model_dump_json llm tools inputs).
Proof.
  induction inputs as [|q rest IH]; [apply preserves_raise|].
  cbn [main_loop]. apply preserves_bind; [apply log_keeps|]. intros _.
  destruct (String.eqb (lower q) "q"); [apply preserves_ret|].
  apply preserves_bind; [apply iteration_keeps | intros _; exact IH].
Qed.

Lemma main_keeps (inputs : list string) :
  preserves host_calls_query_db_only (main peer model_dump_json llm inputs).
Proof.
  apply preserves_try_finally; [|apply on_client_keeps, disconnect_keeps].
  apply preserves_try_except; [|intros e; apply log_keeps].
  apply preserves_bind; [|intros tools; apply main_loop_keeps].
  apply preserves_bind; [apply on_client_keeps, connect_keeps|]. intros _.
  apply preserves_bind; [|intros _; apply on_client_keeps, list_tools_keeps].
  apply preserves_bind; [apply on_client_keeps, anext_keeps|]. intros [[item|] g].
  - destruct g; try apply preserves_ret.
    apply preserves_bind; [apply log_keeps | intros _; apply log_schema_keeps].
  - apply preserves_ret.
Qed.

End WireInvariant.

Section HostMore.
Import Client Host.

Variable peer : Peer.
Variable model_dump_json : Content -> string.
Variable llm : Collaborators.

Lemma on_client_disconnect (h : host) :
  on_client disconnect h =
  (Returned tt,
   mk_host (mk_MCP_Client (url (client h)) None []
              (sent (client h) ++ map Release (exit_stack (client h))))
           (journal h)).
Proof. reflexivity. Qed.

(** [main] in terms of what its [try] block does. *)
Lemma main_outcome (inputs : list string) (h : host) :
  main peer model_dump_json llm inputs h =
  match (tools <- startup peer ;; main_loop peer model_dump_json llm tools inputs) h with
  | (Returned _, h2) => on_client disconnect h2
  | (Raised e, h2) =>
      on_client disconnect (mk_host (client h2) (journal h2 ++ [ErrorLogged (exn_str e)]))
  end.
Proof.
  unfold main, try_finally, try_except.
  destruct ((tools <- startup peer ;; main_loop peer model_dump_json llm tools inputs) h)
    as [[[]|e] h2]; reflexivity.
Qed.

Lemma startup_connect_fails (h : host) (e : exn) (c' : MCP_Client) :
  connect peer (client h) = (Raised e, c') ->
  startup peer h = (Raised e, mk_host c' (journal h)).
Proof. intros H. unfold startup, bind, on_client. rewrite H. reflexivity. Qed.

Lemma lower_is_q (q : string) :
  String.eqb (lower q) "q" = true <-> q = "q" \/ q = "Q".
Proof.
  split.
  - intros H. apply String.eqb_eq in H.
    destruct q as [|a [|b q]]; [discriminate | | discriminate].
    destruct a as [[] [] [] [] [] [] [] []]; vm_compute in H;
      first [discriminate H | left; reflexivity | right; reflexivity].
  - intros [-> | ->]; reflexivity.
Qed.

End HostMore.

(** X14. When connecting fails, [main] reads no line of input, whatever is
    waiting there: it logs the connection error and returns, the client
    disconnected. *)
Theorem main_reads_nothing_without_connection :
  forall (peer : Client.Peer) (dump : Client.Content -> string) (llm : Host.Collaborators)
         (inputs : list string) (h : Host.host) (e : exn) (c' : Client.MCP_Client),
    Client.connect peer (Host.client h) = (Raised e, c') ->
    Host.main peer dump llm inputs h =
    (Returned tt,
     Host.mk_host
       (Client.mk_MCP_Client (Client.url c') None []
          (Client.sent c' ++ map Client.Release (Client.exit_stack c')))
       (Host.journal h ++ [Host.ErrorLogged (exn_str e)])).
Proof.
  intros peer dump llm inputs h e c' H. rewrite main_outcome.
  unfold bind at 1. rewrite (startup_connect_fails peer h e c' H).
  rewrite on_client_disconnect. reflexivity.
Qed.

Lemma main_reads_nothing_without_connection_witness :
  Host.main Scenario.dead_peer Scenario.dump Scenario.picky_llm
    ["how many users are there"; "q"] Host.fresh_host =
  (Returned tt,
   Host.mk_host
     (Client.mk_MCP_Client "http://127.0.0.1:8100/sse" None []
        [Client.OpenSse "http://127.0.0.1:8100/sse"])
     [Host.ErrorLogged "Failed to connect to MCP server: All connection attempts failed"]).
Proof.
  rewrite (main_reads_nothing_without_connection Scenario.dead_peer Scenario.dump
             Scenario.picky_llm _ Host.fresh_host
             (mk_exn ConnectionError
                "Failed to connect to MCP server: All connection attempts failed")
             (Client.mk_MCP_Client "http://127.0.0.1:8100/sse" None []
                [Client.OpenSse "http://127.0.0.1:8100/sse"])).
  - reflexivity.
  - vm_compute. reflexivity.
Defined.

(** X15. The host calls no tool but [query_db], and calls it with the one
    argument [sql]: if every tool call on the wire is of that form before
    [main], so is every tool call on the wire after it, whatever the peer
    advertises and whatever the reasoning collaborator answers. *)
Theorem host_calls_only_query_db :
  forall (peer : Client.Peer) (dump : Client.Content -> string) (llm : Host.Collaborators)
         (inputs : list string) (h : Host.host),
    Forall Observe.query_db_only (Client.sent (Host.client h)) ->
    Forall Observe.query_db_only
      (Client.sent (Host.client (snd (Host.main peer dump llm inputs h)))).
Proof.
  intros peer dump llm inputs h H.
  apply (main_keeps peer dump llm inputs h H).
Qed.

Lemma host_calls_only_query_db_witness :
  Forall Observe.query_db_only
    (Client.sent (Host.client (snd (Host.main Scenario.live_peer Scenario.dump
       Scenario.picky_llm ["how many users are there"; "q"] Host.fresh_host)))).
Proof.
  apply host_calls_only_query_db. constructor.
Defined.

(** X16. When the translation yields no [sql] (the collaborator's request
    fails, it gives no choice, it declines to call a tool, its arguments are
    not JSON, or they have no key [sql]), the iteration raises that very
    exception, and all it has done is fetch the prompt: no tool is invoked
    and no explanation is asked for. *)
Theorem translation_failure_invokes_nothing :
  forall (peer : Client.Peer) (dump : Client.Content -> string) (llm : Host.Collaborators)
         (tools : list Client.ToolDef) (q : string) (h : Host.host)
         (s : Client.ClientSession) (prompt : Client.GetPromptResult)
         (first_message : Client.PromptMessage) (prompt_text : string) (e : exn),
    Client.session (Host.client h) = Some s ->
    Client.get_prompt_reply peer "sql_prompt" [("question", JStr q)] = Returned prompt ->
    Host.list_index (Client.messages prompt) 0 = Returned first_message ->
    Host.content_text (Client.message_content first_message) = Returned prompt_text ->
    (let! response := Host.translate llm prompt_text (map Host.openai_tool_of tools) in
     let! choice := Host.list_index (Host.choices response) 0 in
     let! call := Host.first_tool_call choice in
     let! sql_args := Host.json_loads llm (Host.function_arguments call) in
     subscript sql_args "sql") = Raised e ->
    Host.iteration peer dump llm tools q h =
    (Raised e,
     Host.mk_host
       (Client.mk_MCP_Client (Client.url (Host.client h)) (Some s)
          (Client.exit_stack (Host.client h))
          (Client.sent (Host.client h)
           ++ [Client.GetPrompt "sql_prompt" [("question", JStr q)]]))
       (Host.journal h ++ [Host.Translating prompt_text])).
Proof.
  intros peer dump llm tools q h s prompt first_message prompt_text e
    Hs Hprompt Hfirst Htext Hchain.
  unfold Host.iteration, bind at 1, Host.on_client.
  rewrite (get_prompt_connected peer (Host.client h) s _ _ Hs), Hprompt, Hs.
  unfold bind at 1, lift at 1. rewrite Hfirst.
  unfold bind at 1, lift at 1. rewrite Htext.
  unfold bind at 1, Host.log at 1, modify. cbn [Host.client Host.journal].
  unfold bind at 1, lift at 1.
  destruct (Host.translate llm prompt_text (map Host.openai_tool_of tools))
    as [response|e0]; cbn [obind] in Hchain; [|injection Hchain as <-; reflexivity].
  unfold bind at 1, lift at 1.
  destruct (Host.list_index (Host.choices response) 0) as [choice|e0];
    cbn [obind] in Hchain; [|injection Hchain as <-; reflexivity].
  unfold bind at 1, lift at 1.
  destruct (Host.first_tool_call choice) as [call|e0];
    cbn [obind] in Hchain; [|injection Hchain as <-; reflexivity].
  unfold bind at 1, lift at 1.
  destruct (Host.json_loads llm (Host.function_arguments call)) as [sql_args|e0];
    cbn [obind] in Hchain; [|injection Hchain as <-; reflexivity].
  unfold bind at 1, lift at 1. rewrite Hchain. reflexivity.
Qed.

Lemma translation_failure_invokes_nothing_witness :
  let h := snd (Host.startup Scenario.live_peer Host.fresh_host) in
  fst (Host.iteration Scenario.live_peer Scenario.dump Scenario.picky_llm []
         "list all orders" h) =
    Raised (mk_exn TypeError "'NoneType' object is not subscriptable") /\
  Client.sent (Host.client
    (snd (Host.iteration Scenario.live_peer Scenario.dump Scenario.picky_llm []
            "list all orders" h))) =
    Client.sent (Host.client h)
    ++ [Client.GetPrompt "sql_prompt" [("question", JStr "list all orders")]].
Proof.
  cbv zeta.
  rewrite (translation_failure_invokes_nothing Scenario.live_peer Scenario.dump
             Scenario.picky_llm [] "list all orders"
             (snd (Host.startup Scenario.live_peer Host.fresh_host))
             (Client.mk_ClientSession "http://127.0.0.1:8100/sse")
             (Client.mk_GetPromptResult
                [Client.mk_PromptMessage "user"
                   (Client.TextContent (Server.sql_prompt "list all orders"))])
             (Client.mk_PromptMessage "user"
                (Client.TextContent (Server.sql_prompt "list all orders")))
             (Server.sql_prompt "list all orders")
             (mk_exn TypeError "'NoneType' object is not subscriptable")).
  - split; reflexivity.
  - vm_compute. reflexivity.
  - reflexivity.
  - reflexivity.
  - reflexivity.
  - vm_compute. reflexivity.
Defined.

(** X17. Whatever JSON value the collaborator puts under [sql] (a string or
    not), the host passes it on as it is: the iteration sends the prompt
    request and then one call of [query_db] with that value as its only
    argument, and nothing else, however the call and the explanation end. *)
Theorem sql_is_passed_unchecked :
  forall (peer : Client.Peer) (dump : Client.Content -> string) (llm : Host.Collaborators)
         (tools : list Client.ToolDef) (q : string) (h : Host.host)
         (s : Client.ClientSession) (prompt : Client.GetPromptResult)
         (first_message : Client.PromptMessage) (prompt_text : string) (v : json),
    Client.session (Host.client h) = Some s ->
    Client.get_prompt_reply peer "sql_prompt" [("question", JStr q)] = Returned prompt ->
    Host.list_index (Client.messages prompt) 0 = Returned first_message ->
    Host.content_text (Client.message_content first_message) = Returned prompt_text ->
    (let! response := Host.translate llm prompt_text (map Host.openai_tool_of tools) in
     let! choice := Host.list_index (Host.choices response) 0 in
     let! call := Host.first_tool_call choice in
     let! sql_args := Host.json_loads llm (Host.function_arguments call) in
     subscript sql_args "sql") = Returned v ->
    Client.sent (Host.client (snd (Host.iteration peer dump llm tools q h))) =
    Client.sent (Host.client h)
    ++ [Client.GetPrompt "sql_prompt" [("question", JStr q)];
        Client.CallTool "query_db" [("sql", v)]].
Proof.
  intros peer dump llm tools q h s prompt first_message prompt_text v
    Hs Hprompt Hfirst Htext Hchain.
  unfold Host.iteration, bind at 1, Host.on_client.
  rewrite (get_prompt_connected peer (Host.client h) s _ _ Hs), Hprompt, Hs.
  unfold bind at 1, lift at 1. rewrite Hfirst.
  unfold bind at 1, lift at 1. rewrite Htext.
  unfold bind at 1, Host.log at 1, modify. cbn [Host.client Host.journal].
  unfold bind at 1, lift at 1.
  destruct (Host.translate llm prompt_text (map Host.openai_tool_of tools))
    as [response|e0]; cbn [obind] in Hchain; [|discriminate].
  unfold bind at 1, lift at 1.
  destruct (Host.list_index (Host.choices response) 0) as [choice|e0];
    cbn [obind] in Hchain; [|discriminate].
  unfold bind at 1, lift at 1.
  destruct (Host.first_tool_call choice) as [call|e0];
    cbn [obind] in Hchain; [|discriminate].
  unfold bind at 1, lift at 1.
  destruct (Host.json_loads llm (Host.function_arguments call)) as [sql_args|e0];
    cbn [obind] in Hchain; [|discriminate].
  unfold bind at 1, lift at 1. rewrite Hchain.
  unfold bind at 1, Host.on_client. cbn [Host.client Host.journal].
  rewrite (call_tool_connected peer dump
             (Client.mk_MCP_Client (Client.url (Host.client h)) (Some s)
                (Client.exit_stack (Host.client h))
                (Client.sent (Host.client h)
                 ++ [Client.GetPrompt "sql_prompt" [("question", JStr q)]]))
             s "query_db" (Some [("sql", v)]) eq_refl).
  cbn [get_or Client.url Client.session Client.exit_stack Client.sent].
  destruct (Client.call_tool_reply peer "query_db" [("sql", v)]) as [result|e0];
    [|cbn; rewrite <- app_assoc; reflexivity].
  unfold bind, Host.log, modify, lift.
  destruct (Host.explain llm _) as [explanation|e0];
    [|cbn; rewrite <- app_assoc; reflexivity].
  destruct (Host.list_index (Host.choices explanation) 0) as [answer|e0];
    cbn; rewrite <- app_assoc; reflexivity.
Qed.

Lemma sql_is_passed_unchecked_witness :
  let h := snd (Host.startup Scenario.live_peer Host.fresh_host) in
  let llm :=
    Host.mk_Collaborators
      (fun _ _ => Returned (Host.mk_ChatCompletion
         [Host.mk_ChatMessage None (Some [Host.mk_ToolCall "query_db" "{}"])]))
      (fun _ => Raised (mk_exn APIError "rate limited"))
      (fun _ => Returned (JObj [("sql", JNum 42)])) in
  Client.sent (Host.client
    (snd (Host.iteration Scenario.live_peer Scenario.dump llm [] "anything" h))) =
  Client.sent (Host.client h)
  ++ [Client.GetPrompt "sql_prompt" [("question", JStr "anything")];
      Client.CallTool "query_db" [("sql", JNum 42)]].
Proof.
  cbv zeta.
  apply (sql_is_passed_unchecked Scenario.live_peer Scenario.dump _ [] "anything"
           (snd (Host.startup Scenario.live_peer Host.fresh_host))
           (Client.mk_ClientSession "http://127.0.0.1:8100/sse")
           (Client.mk_GetPromptResult
              [Client.mk_PromptMessage "user"
                 (Client.TextContent (Server.sql_prompt "anything"))])
           (Client.mk_PromptMessage "user"
              (Client.TextContent (Server.sql_prompt "anything")))
           (Server.sql_prompt "anything")
           (JNum 42)).
  - reflexivity.
  - reflexivity.
  - reflexivity.
  - reflexivity.
  - reflexivity.
Defined.

(** X18. When the input ends without a quit line, the questions read so far
    having been answered, [main] treats the end of input as an error: it
    logs [EOFError]'s message once, disconnects and returns. *)
Theorem main_logs_end_of_input :
  forall (peer : Client.Peer) (dump : Client.Content -> string) (llm : Host.Collaborators)
         (tools : list Client.ToolDef) (questions : list string) (h h1 h2 : Host.host),
    Host.startup peer h = (Returned tools, h1) ->
    Host.answered peer dump llm tools questions h1 h2 ->
    Host.main peer dump llm questions h =
    (Returned tt,
     Host.mk_host
       (Client.mk_MCP_Client (Client.url (Host.client h2)) None []
          (Client.sent (Host.client h2)
           ++ map Client.Release (Client.exit_stack (Host.client h2))))
       (Host.journal h2 ++ [Host.ErrorLogged "EOF when reading a line"])).
Proof.
  intros peer dump llm tools questions h h1 h2 Hstart Hanswered.
  rewrite (main_after_startup peer dump llm _ h h1 tools Hstart).
  rewrite <- (app_nil_r questions).
  rewrite (main_loop_answered peer dump llm tools questions [] h1 h2 Hanswered).
  reflexivity.
Qed.

Lemma main_logs_end_of_input_witness :
  Host.journal (snd (Host.main Scenario.live_peer Scenario.dump Scenario.picky_llm []
                       Host.fresh_host)) =
  [ Host.SchemaLogged (JStr "表 users:"); Host.SchemaLogged (JStr "  - id (INTEGER)");
    Host.ErrorLogged "EOF when reading a line" ].
Proof.
  rewrite (main_logs_end_of_input Scenario.live_peer Scenario.dump Scenario.picky_llm
             [Client.tool_def "http://127.0.0.1:8100/sse" Scenario.query_db_tool] []
             Host.fresh_host
             (snd (Host.startup Scenario.live_peer Host.fresh_host))
             (snd (Host.startup Scenario.live_peer Host.fresh_host))).
  - vm_compute. reflexivity.
  - vm_compute. reflexivity.
  - apply Host.answered_nil.
Defined.

(** X19. The quit line is ["q"] or ["Q"], nothing else. On it, the questions
    before it having been answered, [main] leaves the loop without an error:
    it sends nothing more, reads none of the lines that follow, disconnects
    and returns. *)
Theorem main_quits_cleanly :
  forall (peer : Client.Peer) (dump : Client.Content -> string) (llm : Host.Collaborators)
         (tools : list Client.ToolDef) (questions : list string) (q : string)
         (rest : list string) (h h1 h2 : Host.host),
    Host.startup peer h = (Returned tools, h1) ->
    Host.answered peer dump llm tools questions h1 h2 ->
    q = "q" \/ q = "Q" ->
    String.eqb (lower q) "q" = true /\
    Host.main peer dump llm (questions ++ q :: rest) h =
    (Returned tt,
     Host.mk_host
       (Client.mk_MCP_Client (Client.url (Host.client h2)) None []
          (Client.sent (Host.client h2)
           ++ map Client.Release (Client.exit_stack (Host.client h2))))
       (Host.journal h2 ++ [Host.ReadLine q])).
Proof.
  intros peer dump llm tools questions q rest h h1 h2 Hstart Hanswered Hq.
  apply lower_is_q in Hq. split; [exact Hq|].
  rewrite (main_after_startup peer dump llm _ h h1 tools Hstart).
  rewrite (main_loop_answered peer dump llm tools questions (q :: rest) h1 h2 Hanswered).
  rewrite (main_loop_quit peer dump llm tools q rest h2 Hq).
  reflexivity.
Qed.

Lemma main_quits_cleanly_witness :
  Host.journal (snd (Host.main Scenario.live_peer Scenario.dump Scenario.picky_llm
                       ([] ++ "Q" :: ["how many users are there"]) Host.fresh_host)) =
  [ Host.SchemaLogged (JStr "表 users:"); Host.SchemaLogged (JStr "  - id (INTEGER)");
    Host.ReadLine "Q" ].
Proof.
  destruct (main_quits_cleanly Scenario.live_peer Scenario.dump Scenario.picky_llm
              [Client.tool_def "http://127.0.0.1:8100/sse" Scenario.query_db_tool] [] "Q"
              ["how many users are there"] Host.fresh_host
              (snd (Host.startup Scenario.live_peer Host.fresh_host))
              (snd (Host.startup Scenario.live_peer Host.fresh_host))) as [_ Hrun].
  - vm_compute. reflexivity.
  - apply Host.answered_nil.
  - right. reflexivity.
  - rewrite Hrun. vm_compute. reflexivity.
Defined.

(** Any other line, such as a quit letter with a blank, is a question. *)
Lemma only_q_quits (q : string) :
  q <> "q" -> q <> "Q" -> String.eqb (lower q) "q" = false.
Proof.
  intros H1 H2. destruct (String.eqb (lower q) "q") eqn:H; [|reflexivity].
  apply lower_is_q in H. tauto.
Qed.

(** X20. Connecting a new client to a server that answers and then
    disconnecting leaves the client as it was but for the wire: no session,
    an empty exit stack, the same URL; and the wire shows the stream opened,
    the handshake, the tool listing, and then the two contexts left in
    reverse order of entry, the session before the stream. *)
Theorem connect_then_disconnect :
  forall (peer : Client.Peer) (c : Client.MCP_Client) (tools : list Client.Tool),
    Client.exit_stack c = [] ->
    Client.sse_reply peer (Client.url c) = Returned tt ->
    Client.session_reply peer = Returned tt ->
    Client.initialize_reply peer = Returned tt ->
    Client.list_tools_reply peer = Returned tools ->
    (c' <- Client.connect peer ;; Client.disconnect) c =
    (Returned tt,
     Client.mk_MCP_Client (Client.url c) None []
       (Client.sent c
        ++ [ Client.OpenSse (Client.url c); Client.Initialize; Client.ListTools;
             Client.Release Client.SessionContext; Client.Release Client.StreamsContext ])).
Proof.
  intros peer c tools Hstack H1 H2 H3 H4.
  unfold bind. rewrite connect_cases. cbv zeta. rewrite H1, H2, H3, H4, Hstack.
  rewrite disconnect_state. cbn. rewrite <- !app_assoc. reflexivity.
Qed.

Lemma connect_then_disconnect_witness :
  (c' <- Client.connect Scenario.live_peer ;; Client.disconnect)
    (Client.init "127.0.0.1" 8100) =
  (Returned tt,
   Client.mk_MCP_Client "http://127.0.0.1:8100/sse" None []
     [ Client.OpenSse "http://127.0.0.1:8100/sse"; Client.Initialize; Client.ListTools;
       Client.Release Client.SessionContext; Client.Release Client.StreamsContext ]).
Proof.
  apply (connect_then_disconnect Scenario.live_peer (Client.init "127.0.0.1" 8100)
           [Scenario.query_db_tool]); reflexivity.
Defined.
